(** * dateparser.conf: settings snapshots, overlays and cache keys

    A shallow embedding of [dateparser/conf.py]: the [Settings] class
    ([__init__], [get_key], [_get_settings_from_pyfile], [_updateall],
    [replace]), the module-level base instance [settings] and the decorator
    [apply_settings], followed by the properties the specification states
    about them.

    Python objects are modelled by the type [value]; a [dict] is an
    association list in insertion order; a raised exception is the [Raise]
    branch of [result]. *)

From Stdlib Require Import ZArith List Bool Lia.
From Stdlib Require Import Ascii String DecimalString.
From Stdlib Require Import Permutation Sorted.
Import ListNotations.

Set Warnings "-register-all".

Local Open Scope string_scope.
Local Open Scope Z_scope.

(** ** Python values *)

(** The objects this module handles.  [VInst] is an instance of [Settings],
    given by its instance dictionary.  [VObj] stands for an object of any
    other class (a list, a float, a datetime, ...): the module only ever asks
    such an object for its truth value and for its [str()] text, so that is
    what the constructor carries. *)
Inductive value : Type :=
| VNone
| VBool (b : bool)
| VInt (z : Z)
| VStr (s : string)
| VDict (d : list (string * value))
| VInst (attrs : list (string * value))
| VObj (truth : bool) (shown : string).

(** A Python [dict] with [str] keys, in insertion order.  Python keeps the
    keys of a dict distinct; [dict_wf] states it. *)
Definition dict : Type := list (string * value).

(** Exceptions raised by the module or by the interpreter on its behalf. *)
Inductive exn : Type :=
| TypeError (msg : string)
| AttributeError (msg : string)
| KeyError (key : string).

Inductive result (A : Type) : Type :=
| Ok (a : A)
| Raise (e : exn).
Arguments Ok {A} a.
Arguments Raise {A} e.

Definition bind {A B : Type} (m : result A) (k : A -> result B) : result B :=
  match m with
  | Ok a => k a
  | Raise e => Raise e
  end.

Notation "x <- m ;; k" := (bind m (fun x => k))
  (at level 61, m at next level, right associativity).

(** ** Builtins *)

(** [bool(v)]: the truth value Python gives an object.  [Settings] defines
    neither [__bool__] nor [__len__], so its instances are true. *)
Definition truthy (v : value) : bool :=
  match v with
  | VNone => false
  | VBool b => b
  | VInt z => negb (z =? 0)
  | VStr s => negb (String.eqb s EmptyString)
  | VDict d => match d with [] => false | _ :: _ => true end
  | VInst _ => true
  | VObj t _ => t
  end.

(** [a or b]. *)
Definition py_or (a b : value) : value := if truthy a then a else b.

(** [v is None]. *)
Definition is_None (v : value) : bool :=
  match v with VNone => true | _ => false end.

(** [isinstance(v, dict)] and [isinstance(v, Settings)]. *)
Definition isinstance_dict (v : value) : bool :=
  match v with VDict _ => true | _ => false end.

Definition isinstance_Settings (v : value) : bool :=
  match v with VInst _ => true | _ => false end.

(** [str(z)] for an [int]: decimal digits, with a minus sign when negative. *)
Definition str_int (z : Z) : string := NilZero.string_of_int (Z.to_int z).

(** The one-character string holding a double quote. *)
Definition dquote : string := String (ascii_of_nat 34) EmptyString.

(** [''.join(l)]. *)
Fixpoint join (l : list string) : string :=
  match l with
  | [] => EmptyString
  | s :: l' => s ++ join l'
  end.

(** [sorted(l)] on a list of [str]: Python compares strings code point by
    code point, and a shorter string that is a prefix of a longer one comes
    first; [String.leb] is that order.  The sort is modelled by insertion. *)
Fixpoint insert_sorted (x : string) (l : list string) : list string :=
  match l with
  | [] => [x]
  | y :: l' => if String.leb x y then x :: l else y :: insert_sorted x l'
  end.

Fixpoint sorted (l : list string) : list string :=
  match l with
  | [] => []
  | x :: l' => insert_sorted x (sorted l')
  end.

(** ** hashlib.md5 *)

(** MD5 as in RFC 1321, on 32-bit words held in [Z] with the wrap-around
    written out.  A [str] is modelled by its UTF-8 bytes, so
    [s.encode('utf-8')] is the list of the character codes of [s]. *)
Module MD5.

Definition word (x : Z) : Z := x mod 4294967296.

Definition add32 (x y : Z) : Z := word (x + y).

Definition not32 (x : Z) : Z := Z.lxor x 4294967295.

Definition rotl32 (x c : Z) : Z :=
  Z.lor (word (Z.shiftl x c)) (Z.shiftr x (32 - c)).

Definition shifts : list Z :=
  [7; 12; 17; 22; 7; 12; 17; 22; 7; 12; 17; 22; 7; 12; 17; 22;
   5; 9; 14; 20; 5; 9; 14; 20; 5; 9; 14; 20; 5; 9; 14; 20;
   4; 11; 16; 23; 4; 11; 16; 23; 4; 11; 16; 23; 4; 11; 16; 23;
   6; 10; 15; 21; 6; 10; 15; 21; 6; 10; 15; 21; 6; 10; 15; 21].

(** [floor (2^32 * abs (sin (i + 1)))] for [i] from 0 to 63. *)
Definition sines : list Z :=
  [0xd76aa478; 0xe8c7b756; 0x242070db; 0xc1bdceee;
   0xf57c0faf; 0x4787c62a; 0xa8304613; 0xfd469501;
   0x698098d8; 0x8b44f7af; 0xffff5bb1; 0x895cd7be;
   0x6b901122; 0xfd987193; 0xa679438e; 0x49b40821;
   0xf61e2562; 0xc040b340; 0x265e5a51; 0xe9b6c7aa;
   0xd62f105d; 0x02441453; 0xd8a1e681; 0xe7d3fbc8;
   0x21e1cde6; 0xc33707d6; 0xf4d50d87; 0x455a14ed;
   0xa9e3e905; 0xfcefa3f8; 0x676f02d9; 0x8d2a4c8a;
   0xfffa3942; 0x8771f681; 0x6d9d6122; 0xfde5380c;
   0xa4beea44; 0x4bdecfa9; 0xf6bb4b60; 0xbebfbc70;
   0x289b7ec6; 0xeaa127fa; 0xd4ef3085; 0x04881d05;
   0xd9d4d039; 0xe6db99e5; 0x1fa27cf8; 0xc4ac5665;
   0xf4292244; 0x432aff97; 0xab9423a7; 0xfc93a039;
   0x655b59c3; 0x8f0ccc92; 0xffeff47d; 0x85845dd1;
   0x6fa87e4f; 0xfe2ce6e0; 0xa3014314; 0x4e0811a1;
   0xf7537e82; 0xbd3af235; 0x2ad7d2bb; 0xeb86d391].

Record state : Type := mkState { sa : Z; sb : Z; sc : Z; sd : Z }.

Definition init : state :=
  mkState 0x67452301 0xefcdab89 0x98badcfe 0x10325476.

(** One of the 64 operations of a block: [i] is its index, [m] the sixteen
    words of the block. *)
Definition step (m : list Z) (st : state) (i : Z) : state :=
  let '(mkState a b c d) := st in
  let f :=
    if i <? 16 then Z.lor (Z.land b c) (Z.land (not32 b) d)
    else if i <? 32 then Z.lor (Z.land d b) (Z.land (not32 d) c)
    else if i <? 48 then Z.lxor (Z.lxor b c) d
    else Z.lxor c (Z.lor b (not32 d)) in
  let g :=
    if i <? 16 then i
    else if i <? 32 then (5 * i + 1) mod 16
    else if i <? 48 then (3 * i + 5) mod 16
    else (7 * i) mod 16 in
  let f' := add32 (add32 (add32 f a) (nth (Z.to_nat i) sines 0))
                  (nth (Z.to_nat g) m 0) in
  mkState d (add32 b (rotl32 f' (nth (Z.to_nat i) shifts 0))) b c.

Definition rounds : list Z := map Z.of_nat (seq 0 64).

(** Cuts a list into pieces of [n + 1] elements; [k] counts what the piece
    under construction still lacks, [acc] holds it reversed. *)
Fixpoint group {A : Type} (n k : nat) (acc : list A) (l : list A)
  : list (list A) :=
  match l with
  | [] => match acc with [] => [] | _ :: _ => [rev acc] end
  | x :: l' =>
      match k with
      | O => rev (x :: acc) :: group n n [] l'
      | S k' => group n k' (x :: acc) l'
      end
  end.

(** Little-endian value of a run of bytes. *)
Fixpoint le_word (bs : list Z) : Z :=
  match bs with
  | [] => 0
  | b :: bs' => b + 256 * le_word bs'
  end.

(** The [n] low bytes of [x], least significant first. *)
Fixpoint le_bytes (n : nat) (x : Z) : list Z :=
  match n with
  | O => []
  | S n' => x mod 256 :: le_bytes n' (x / 256)
  end.

Definition block (st : state) (bytes : list Z) : state :=
  let m := map le_word (group 3 3 [] bytes) in
  let st' := fold_left (step m) rounds st in
  mkState (add32 (sa st) (sa st')) (add32 (sb st) (sb st'))
          (add32 (sc st) (sc st')) (add32 (sd st) (sd st')).

(** The message followed by the byte 0x80, zero bytes up to 56 modulo 64, and
    the length of the message in bits on eight bytes. *)
Definition pad (bytes : list Z) : list Z :=
  let len := Z.of_nat (List.length bytes) in
  let zeros := Z.to_nat ((55 - len) mod 64) in
  bytes ++ [128] ++ repeat 0 zeros ++ le_bytes 8 ((8 * len) mod 2 ^ 64).

Definition digest (bytes : list Z) : list Z :=
  let st := fold_left block (group 63 63 [] (pad bytes)) init in
  le_bytes 4 (sa st) ++ le_bytes 4 (sb st)
    ++ le_bytes 4 (sc st) ++ le_bytes 4 (sd st).

Definition hex_digit (n : Z) : ascii :=
  ascii_of_nat (Z.to_nat (if n mod 16 <? 10 then 48 + n mod 16
                          else 87 + n mod 16)).

Fixpoint hex (bytes : list Z) : string :=
  match bytes with
  | [] => EmptyString
  | b :: bs => String (hex_digit (b / 16)) (String (hex_digit b) (hex bs))
  end.

Fixpoint encode (s : string) : list Z :=
  match s with
  | EmptyString => []
  | String c s' => Z.of_nat (nat_of_ascii c) :: encode s'
  end.

(** [hashlib.md5(s.encode('utf-8')).hexdigest()]. *)
Definition hexdigest (s : string) : string := hex (digest (encode s)).

End MD5.

(** ** dict operations *)

(** [list(d.keys())], which is also the order of [for key in d]. *)
Definition dict_keys (d : dict) : list string := map fst d.

(** The value [d] holds under [k], if any. *)
Fixpoint dict_get (d : dict) (k : string) : option value :=
  match d with
  | [] => None
  | (k', v) :: d' => if String.eqb k k' then Some v else dict_get d' k
  end.

(** [d.get(k)], which is [None] when the key is missing. *)
Definition get (d : dict) (k : string) : value :=
  match dict_get d k with Some v => v | None => VNone end.

(** [k in d]. *)
Definition dict_has (d : dict) (k : string) : bool :=
  match dict_get d k with Some _ => true | None => false end.

(** [d[k]]. *)
Definition getitem (d : dict) (k : string) : result value :=
  match dict_get d k with
  | Some v => Ok v
  | None => Raise (KeyError k)
  end.

(** [d[k] = v]: an existing key keeps its place and takes the new value, a
    new key goes to the end. *)
Fixpoint setitem (d : dict) (k : string) (v : value) : dict :=
  match d with
  | [] => [(k, v)]
  | (k', v') :: d' =>
      if String.eqb k k' then (k', v) :: d' else (k', v') :: setitem d' k v
  end.

(** [d.setdefault(k, v)], for its effect on [d]. *)
Definition setdefault (d : dict) (k : string) (v : value) : dict :=
  if dict_has d k then d else setitem d k v.

(** The keys of a Python dict are pairwise distinct. *)
Fixpoint distinct (l : list string) : bool :=
  match l with
  | [] => true
  | k :: l' => negb (existsb (String.eqb k) l') && distinct l'
  end.

Definition dict_wf (d : dict) : Prop := distinct (dict_keys d) = true.

(** No value of [d] is [None]. *)
Definition no_None (d : dict) : bool := forallb (fun kv => negb (is_None (snd kv))) d.

(** A [for] loop whose body may raise. *)
Fixpoint for_each {A S : Type} (body : S -> A -> result S) (l : list A) (s : S)
  : result S :=
  match l with
  | [] => Ok s
  | x :: l' => s' <- body s x ;; for_each body l' s'
  end.

(** A list comprehension whose element expression may raise. *)
Fixpoint comprehension {A B : Type} (e : A -> result B) (l : list A)
  : result (list B) :=
  match l with
  | [] => Ok []
  | x :: l' => y <- e x ;; ys <- comprehension e l' ;; Ok (y :: ys)
  end.

(** An option table with an option that has no default value. *)
Definition table_with_None : dict :=
  [("TIMEZONE", VStr "UTC"); ("RELATIVE_BASE", VNone)].

(** What [replace] makes of the base instance of [table_with_None] when
    [TIMEZONE] is overridden. *)
Definition overlaid_with_None : dict :=
  [("TIMEZONE", VStr "CET"); ("RELATIVE_BASE", VNone);
   ("_default", VBool false)].

(** The type of a function that gives the [str()] text of objects. *)
Definition str_of : Type := value -> string.

(** A [container_str] to evaluate the definitions with. *)
Definition plain_str : str_of := fun _ => "<object>".

(** [str()] of a dict and of a [Settings] instance in two runs of the
    interpreter.  [Settings] defines no [__str__] or [__repr__], so the text
    of an instance is the default one, which shows the address the instance
    was allocated at: it differs from one run to the other. *)
Definition str_in_run_a : str_of := fun v =>
  match v with
  | VInst _ => "<dateparser.conf.Settings object at 0x7f3a5c0d2e80>"
  | _ => "{}"
  end.

Definition str_in_run_b : str_of := fun v =>
  match v with
  | VInst _ => "<dateparser.conf.Settings object at 0x7f91b84a1fd0>"
  | _ => "{}"
  end.

(** The defaults the docstring of [Settings] lists, as an option table to
    evaluate the definitions on. *)
Definition docstring_defaults : dict :=
  [("PREFER_DATES_FROM", VStr "current_period");
   ("PREFER_DAY_OF_MONTH", VStr "current");
   ("SKIP_TOKENS", VObj true "['t']");
   ("TIMEZONE", VStr "UTC");
   ("RETURN_TIME_AS_PERIOD", VBool false);
   ("USE_GIVEN_LANGUAGE_ORDER", VBool false)].

(** The callable used to look at what the wrapper hands over: it returns the
    arguments it is called with. *)
Definition probe (args : list value) (kwargs : dict)
  : result (list value * dict) := Ok (args, kwargs).

(** The names under which an instance keeps its bookkeeping, the flag
    [_default] and the overrides [_mod_settings]; every other name is the
    name of an option. *)
Definition option_name (name : string) : bool :=
  negb (String.eqb name "_default") && negb (String.eqb name "_mod_settings").

(** The order [sorted] arranges strings in. *)
Definition str_le (a b : string) : Prop := String.leb a b = true.

(** A character of a lower-case hexadecimal numeral. *)
Definition is_hex (c : ascii) : bool :=
  existsb (Ascii.eqb c) (list_ascii_of_string "0123456789abcdef").

(** ** The module *)

Section Conf.

Set Default Proof Using "Type".

(** [dateparser_data.settings.settings], the option table the module imports:
    it is not part of the module and is left open. *)
Variable pyfile_settings : dict.

(** [str()] of a dict and of a [Settings] instance: the text is the
    interpreter's (the repr of the entries, the address of the instance) and
    is left open. *)
Variable container_str : str_of.

(** [str(v)]. *)
Definition py_str (v : value) : string :=
  match v with
  | VNone => "None"
  | VBool true => "True"
  | VBool false => "False"
  | VInt z => str_int z
  | VStr s => s
  | VObj _ shown => shown
  | VDict _ | VInst _ => container_str v
  end.

(** ['%s-%s' % (key, str(value))] for an entry of a dict. *)
Definition fragment (kv : string * value) : string :=
  fst kv ++ "-" ++ py_str (snd kv).

(** [Settings.get_key]: [settings] is a dict of overrides, or [None]. *)
Definition get_key (settings : option dict) : result string :=
  match settings with
  | None | Some [] => Ok "default"
  | Some d =>
      keys <- comprehension
                (fun key => v <- getitem d key ;; Ok (fragment (key, v)))
                (dict_keys d) ;;
      Ok (MD5.hexdigest (join (sorted keys)))
  end.

(** [Settings._get_settings_from_pyfile]: the table is imported on the first
    call and kept in the class attribute [_pyfile_data]; every call returns
    that same table. *)
Definition _get_settings_from_pyfile : dict := pyfile_settings.

(** [setattr(self, key, value)] on an instance, given by its dictionary. *)
Definition setattr (self : dict) (key : string) (v : value) : dict :=
  setitem self key v.

(** The data attributes of the class, found when an instance has no attribute
    of that name.  ([_pyfile_data] holds the table from the creation of the
    base instance on.)  The methods of the class and what it inherits from
    [object] are not names of options and are left out. *)
Definition class_attr (name : string) : option value :=
  if String.eqb name "_default" then Some (VBool true)
  else if String.eqb name "_pyfile_data" then Some (VDict pyfile_settings)
  else if String.eqb name "_mod_settings" then Some (VDict [])
  else None.

(** [getattr(self, name)]: the instance dictionary, then the class. *)
Definition getattr (self : dict) (name : string) : result value :=
  match dict_get self name with
  | Some v => Ok v
  | None =>
      match class_attr name with
      | Some v => Ok v
      | None =>
          Raise (AttributeError
                   ("'Settings' object has no attribute '" ++ name ++ "'"))
      end
  end.

(** [Settings._updateall]. *)
Definition _updateall (self : dict) (iterable : list (string * value)) : dict :=
  fold_left (fun self kv => setattr self (fst kv) (snd kv)) iterable self.

(** [Settings.__init__]. *)
Definition __init__ (self : dict) (settings : option dict) : dict :=
  match settings with
  | Some ((_ :: _) as d) => _updateall self d
  | Some [] | None => _updateall self _get_settings_from_pyfile
  end.

(** Modelled from the spec: the class decorator [registry] of
    [dateparser.utils] is not among the sources; the specification describes
    it as the factory of the single base instance and gives it no part in
    what an instance holds.  Creating an instance is therefore taken as the
    class defines it: a fresh object handed to [__init__]. *)
Definition Settings (settings : option dict) : dict := __init__ [] settings.

(** The text of ['Invalid {{"{}": {}}}'.format(k, v)] when [v] is [None]. *)
Definition invalid_msg (k : string) : string :=
  "Invalid {" ++ dquote ++ k ++ dquote ++ ": None}".

(** [Settings.replace]; [kwds] is the dict of the keyword arguments. *)
Definition replace (self : dict) (mod_settings : value) (kwds : dict)
  : result dict :=
  _ <- for_each
         (fun (_ : unit) kv =>
            if is_None (snd kv) then Raise (TypeError (invalid_msg (fst kv)))
            else Ok tt)
         kwds tt ;;
  kwds <- for_each
            (fun kwds x => v <- getattr self x ;; Ok (setdefault kwds x v))
            (dict_keys _get_settings_from_pyfile) kwds ;;
  let kwds := setitem kwds "_default" (VBool false) in
  let kwds :=
    if truthy mod_settings then setitem kwds "_mod_settings" mod_settings
    else kwds in
  Ok (Settings (Some kwds)).

(** The module-level [settings = Settings()]: the base instance. *)
Definition settings : dict := Settings None.

(** The call [settings.replace(mod_settings=mod_settings, **d)]: the
    interpreter refuses an entry of [d] named like the keyword given
    explicitly, or like the receiver, before the body runs.  (The wording of
    these two messages is the interpreter's and differs between versions.) *)
Definition call_replace (self : dict) (mod_settings : value) (d : dict)
  : result dict :=
  if dict_has d "mod_settings" then
    Raise (TypeError
      "replace() got multiple values for keyword argument 'mod_settings'")
  else if dict_has d "self" then
    Raise (TypeError "replace() got multiple values for argument 'self'")
  else replace self mod_settings d.

Definition settings_type_msg : string :=
  "settings can only be either dict or instance of Settings class".

(** [apply_settings(f)]: the wrapper around [f], called with the positional
    arguments [args] and the keyword arguments [kwargs]. *)
Definition apply_settings {R : Type} (f : list value -> dict -> result R)
  (args : list value) (kwargs : dict) : result R :=
  let mod_settings := get kwargs "settings" in
  let kwargs := setitem kwargs "settings" (py_or mod_settings (VInst settings)) in
  kwargs <- (s <- getitem kwargs "settings" ;;
             match s with
             | VDict d =>
                 r <- call_replace settings mod_settings d ;;
                 Ok (setitem kwargs "settings" (VInst r))
             | _ => Ok kwargs
             end) ;;
  s <- getitem kwargs "settings" ;;
  match s with
  | VInst _ => f args kwargs
  | _ => Raise (TypeError settings_type_msg)
  end.


(** The snapshots the public surface produces: the base instance, the result
    of [replace] on such a snapshot, and what the wrapper hands to the
    callable when the caller passes nothing, a dict, or such a snapshot. *)
Inductive produced : dict -> Prop :=
| produced_base : produced settings
| produced_replace self mod_settings kwds s :
    produced self ->
    replace self mod_settings kwds = Ok s ->
    produced s
| produced_inject args kwargs args' kwargs' s :
    (forall s0, dict_get kwargs "settings" = Some (VInst s0) -> produced s0) ->
    apply_settings probe args kwargs = Ok (args', kwargs') ->
    dict_get kwargs' "settings" = Some (VInst s) ->
    produced s.

(** The message of the [AttributeError] that [getattr] raises for [name]. *)
Definition no_attribute (name : string) : string :=
  "'Settings' object has no attribute '" ++ name ++ "'".

(** [Settings._get_settings_from_pyfile] with the class attribute
    [_pyfile_data] written out.  The state pairs the attribute with the number
    of times the import statement has run; a call returns what it hands back
    and the state it leaves. *)
Definition _get_settings_from_pyfile_st (st : value * nat)
  : value * (value * nat) :=
  let st' :=
    if negb (truthy (fst st)) then (VDict pyfile_settings, S (snd st))
    else st in
  (fst st', st').

(** The state of the class after [n] calls of the method. *)
Fixpoint after_calls (n : nat) (st : value * nat) : value * nat :=
  match n with
  | O => st
  | S n' => after_calls n' (snd (_get_settings_from_pyfile_st st))
  end.

(** ** hashlib.md5 on the test suite of RFC 1321 *)

Example md5_empty :
  MD5.hexdigest EmptyString = "d41d8cd98f00b204e9800998ecf8427e".
Proof. vm_compute. reflexivity. Qed.

Example md5_abc : MD5.hexdigest "abc" = "900150983cd24fb0d6963f7d28e17f72".
Proof. vm_compute. reflexivity. Qed.

Example md5_message_digest :
  MD5.hexdigest "message digest" = "f96b697d7cb7938d525a2f31aaf161d0".
Proof. vm_compute. reflexivity. Qed.

Example md5_two_blocks :
  MD5.hexdigest
    "12345678901234567890123456789012345678901234567890123456789012345678901234567890"
  = "57edf4a22be3c955ac49da2e2107b67a".
Proof. vm_compute. reflexivity. Qed.

(** ** The shape of a digest *)

Lemma le_bytes_length n x : List.length (MD5.le_bytes n x) = n.
Proof.
  revert x. induction n as [|n IH]; intros x; simpl; [reflexivity|].
  now rewrite IH.
Qed.

Lemma digest_length bytes : List.length (MD5.digest bytes) = 16%nat.
Proof.
  unfold MD5.digest. cbv zeta.
  rewrite !length_app, !le_bytes_length. reflexivity.
Qed.

Lemma hex_length bytes :
  String.length (MD5.hex bytes) = (2 * List.length bytes)%nat.
Proof.
  induction bytes as [|b bs IH]; simpl; [reflexivity|].
  rewrite IH. lia.
Qed.

Lemma hex_digit_is_hex n : is_hex (MD5.hex_digit n) = true.
Proof.
  unfold MD5.hex_digit.
  assert (Hr : 0 <= n mod 16 < 16) by (apply Z.mod_pos_bound; lia).
  remember (n mod 16) as r eqn:Er. clear Er.
  assert (Hc : r = 0 \/ r = 1 \/ r = 2 \/ r = 3 \/ r = 4 \/ r = 5 \/ r = 6
               \/ r = 7 \/ r = 8 \/ r = 9 \/ r = 10 \/ r = 11 \/ r = 12
               \/ r = 13 \/ r = 14 \/ r = 15) by lia.
  repeat (destruct Hc as [Hc|Hc]; [subst r; reflexivity|]).
  subst r; reflexivity.
Qed.

Lemma hex_is_hex bytes :
  forallb is_hex (list_ascii_of_string (MD5.hex bytes)) = true.
Proof.
  induction bytes as [|b bs IH]; simpl; [reflexivity|].
  rewrite !hex_digit_is_hex, IH. reflexivity.
Qed.

Lemma hexdigest_shape s :
  String.length (MD5.hexdigest s) = 32%nat
  /\ forallb is_hex (list_ascii_of_string (MD5.hexdigest s)) = true.
Proof.
  unfold MD5.hexdigest. split.
  - rewrite hex_length, digest_length. reflexivity.
  - apply hex_is_hex.
Qed.

(** ** The order of strings and [sorted] *)

Lemma ascii_compare_lt_trans a b c :
  Ascii.compare a b = Lt -> Ascii.compare b c = Lt -> Ascii.compare a c = Lt.
Proof.
  unfold Ascii.compare. rewrite !N.compare_lt_iff. apply N.lt_trans.
Qed.

Lemma str_le_trans a b c : str_le a b -> str_le b c -> str_le a c.
Proof.
  unfold str_le, String.leb. revert b c.
  induction a as [|x a IH]; intros [|y b] [|z c]; simpl; try congruence.
  destruct (Ascii.compare x y) eqn:Exy; try congruence;
    destruct (Ascii.compare y z) eqn:Eyz; try congruence.
  - apply Ascii.compare_eq_iff in Exy, Eyz. subst.
    replace (Ascii.compare z z) with Eq; [apply IH|].
    symmetry. unfold Ascii.compare. apply N.compare_refl.
  - apply Ascii.compare_eq_iff in Exy. subst. now rewrite Eyz.
  - apply Ascii.compare_eq_iff in Eyz. subst. now rewrite Exy.
  - now rewrite (ascii_compare_lt_trans _ _ _ Exy Eyz).
Qed.

Lemma insert_sorted_perm x l : Permutation (insert_sorted x l) (x :: l).
Proof.
  induction l as [|y l IH]; simpl; [reflexivity|].
  destruct (String.leb x y); [reflexivity|].
  rewrite IH. apply perm_swap.
Qed.

Lemma sorted_perm l : Permutation (sorted l) l.
Proof.
  induction l as [|x l IH]; simpl; [reflexivity|].
  rewrite insert_sorted_perm. now constructor.
Qed.

Lemma insert_sorted_keeps x l :
  StronglySorted str_le l -> StronglySorted str_le (insert_sorted x l).
Proof.
  induction 1 as [|y l Hs IH Hy]; simpl.
  - repeat constructor.
  - destruct (String.leb x y) eqn:E.
    + constructor; [now constructor|].
      constructor; [exact E|].
      eapply Forall_impl; [|exact Hy].
      intros z Hz. eapply str_le_trans; [exact E|exact Hz].
    + constructor; [exact IH|].
      apply (Permutation_Forall (Permutation_sym (insert_sorted_perm x l))).
      constructor; [|exact Hy].
      destruct (String.leb_total x y) as [H|H]; [congruence|exact H].
Qed.

Lemma sorted_is_sorted l : StronglySorted str_le (sorted l).
Proof.
  induction l as [|x l IH]; simpl; [constructor|].
  now apply insert_sorted_keeps.
Qed.

(** Two sorted arrangements of the same strings are the same list. *)
Lemma sorted_unique l1 l2 :
  StronglySorted str_le l1 -> StronglySorted str_le l2 ->
  Permutation l1 l2 -> l1 = l2.
Proof.
  intros H1. revert l2.
  induction H1 as [|x l1 Hs1 IH Hx]; intros l2 H2 Hp.
  - apply Permutation_nil in Hp. now subst.
  - destruct H2 as [|y l2 Hs2 Hy].
    + apply Permutation_sym, Permutation_nil in Hp. discriminate.
    + assert (Exy : x = y).
      { apply String.leb_antisym.
        - assert (Hin : In y (x :: l1))
            by (apply (Permutation_in _ (Permutation_sym Hp)); now left).
          destruct Hin as [->|Hin].
          + destruct (String.leb_total y y); assumption.
          + rewrite Forall_forall in Hx. now apply Hx.
        - assert (Hin : In x (y :: l2))
            by (apply (Permutation_in _ Hp); now left).
          destruct Hin as [->|Hin].
          + destruct (String.leb_total x x); assumption.
          + rewrite Forall_forall in Hy. now apply Hy. }
      subst y. f_equal. apply IH; [exact Hs2|].
      now apply Permutation_cons_inv in Hp.
Qed.

Lemma sorted_of_perm l1 l2 : Permutation l1 l2 -> sorted l1 = sorted l2.
Proof.
  intros Hp. apply sorted_unique; try apply sorted_is_sorted.
  rewrite !sorted_perm. exact Hp.
Qed.

(** ** Facts on dicts *)

Lemma mem_In k l : existsb (String.eqb k) l = true <-> In k l.
Proof.
  rewrite existsb_exists. split.
  - intros (x & Hx & E). apply String.eqb_eq in E. now subst.
  - intros H. exists k. split; [exact H|apply String.eqb_refl].
Qed.

Lemma mem_not_In k l : existsb (String.eqb k) l = false <-> ~ In k l.
Proof.
  rewrite <- mem_In. destruct (existsb (String.eqb k) l); intuition congruence.
Qed.

Lemma distinct_NoDup l : distinct l = true <-> NoDup l.
Proof.
  induction l as [|k l IH]; simpl.
  - split; [constructor|reflexivity].
  - rewrite andb_true_iff, negb_true_iff, mem_not_In, IH. split.
    + intros [H1 H2]. now constructor.
    + intros H. inversion H; subst. now split.
Qed.

Lemma dict_get_In d k v : dict_get d k = Some v -> In (k, v) d.
Proof.
  induction d as [|[k' v'] d IH]; simpl; [discriminate|].
  destruct (String.eqb_spec k k') as [->|_].
  - intros [= ->]. now left.
  - intros H. right. now apply IH.
Qed.

Lemma dict_get_None d k : dict_get d k = None <-> ~ In k (dict_keys d).
Proof.
  induction d as [|[k' v'] d IH]; simpl; [tauto|].
  destruct (String.eqb_spec k k') as [->|Hne].
  - split; [discriminate|]. intros H. exfalso. apply H. now left.
  - rewrite IH. split; [|tauto]. intros H [E|Hin]; [now subst|tauto].
Qed.

Lemma dict_has_In d k : dict_has d k = true <-> In k (dict_keys d).
Proof.
  unfold dict_has. destruct (dict_get d k) eqn:E.
  - split; [intros _|reflexivity].
    apply dict_get_In in E. now apply (in_map fst) in E.
  - apply dict_get_None in E. split; [discriminate|tauto].
Qed.

Lemma dict_get_wf d k v : dict_wf d -> In (k, v) d -> dict_get d k = Some v.
Proof.
  unfold dict_wf. rewrite distinct_NoDup.
  induction d as [|[k' v'] d IH]; simpl; [tauto|].
  intros Hnd [E|Hin]; inversion Hnd as [|? ? Hk Hd]; subst.
  - injection E as -> ->. now rewrite String.eqb_refl.
  - destruct (String.eqb_spec k k') as [->|_]; [|now apply IH].
    exfalso. apply Hk. now apply (in_map fst) in Hin.
Qed.

Lemma dict_get_setitem_eq d k v : dict_get (setitem d k v) k = Some v.
Proof.
  induction d as [|[k' v'] d IH]; simpl.
  - now rewrite String.eqb_refl.
  - destruct (String.eqb_spec k k') as [->|Hne]; simpl.
    + now rewrite String.eqb_refl.
    + destruct (String.eqb_spec k k'); [contradiction|exact IH].
Qed.

Lemma dict_get_setitem_neq d k k' v :
  k' <> k -> dict_get (setitem d k v) k' = dict_get d k'.
Proof.
  intros Hne. induction d as [|[k0 v0] d IH]; simpl.
  - destruct (String.eqb_spec k' k); [contradiction|reflexivity].
  - destruct (String.eqb_spec k k0) as [->|_]; simpl.
    + destruct (String.eqb_spec k' k0); [contradiction|reflexivity].
    + now rewrite IH.
Qed.

Lemma setitem_same d k v : dict_get d k = Some v -> setitem d k v = d.
Proof.
  induction d as [|[k' v'] d IH]; simpl; [discriminate|].
  destruct (String.eqb_spec k k') as [->|_].
  - now intros [= ->].
  - intros H. now rewrite IH.
Qed.

Lemma setitem_setitem d k v w : setitem (setitem d k v) k w = setitem d k w.
Proof.
  induction d as [|[k' v'] d IH]; simpl.
  - now rewrite String.eqb_refl.
  - destruct (String.eqb_spec k k') as [->|Hne]; simpl.
    + now rewrite String.eqb_refl.
    + destruct (String.eqb_spec k k'); [contradiction|now rewrite IH].
Qed.

Lemma setitem_fresh d k v : ~ In k (dict_keys d) -> setitem d k v = (d ++ [(k, v)])%list.
Proof.
  induction d as [|[k' v'] d IH]; simpl; [reflexivity|].
  intros H. destruct (String.eqb_spec k k') as [->|_].
  - exfalso. apply H. now left.
  - rewrite IH; [reflexivity|]. tauto.
Qed.

Lemma setitem_not_nil d k v : setitem d k v <> [].
Proof.
  destruct d as [|[k' v'] d]; simpl; [discriminate|].
  destruct (String.eqb k k'); discriminate.
Qed.

Lemma In_setitem d k v kv : In kv (setitem d k v) -> In kv d \/ kv = (k, v).
Proof.
  induction d as [|[k' v'] d IH]; simpl.
  - intros [E|[]]. now right.
  - destruct (String.eqb_spec k k') as [->|_]; simpl.
    + intros [E|H]; [now right|left; now right].
    + intros [E|H]; [left; now left|].
      destruct (IH H); [left; now right|now right].
Qed.

Lemma dict_keys_setitem d k v :
  dict_keys (setitem d k v)
  = if dict_has d k then dict_keys d else (dict_keys d ++ [k])%list.
Proof.
  destruct (dict_has d k) eqn:E.
  - unfold dict_has in E. destruct (dict_get d k) as [w|] eqn:Eg; [|discriminate].
    clear E. revert Eg. induction d as [|[k' v'] d IH]; simpl; [discriminate|].
    destruct (String.eqb_spec k k') as [->|_]; [reflexivity|].
    intros H. simpl. now rewrite IH.
  - rewrite setitem_fresh.
    + unfold dict_keys. now rewrite map_app.
    + rewrite <- dict_has_In. congruence.
Qed.

Lemma setitem_wf d k v : dict_wf d -> dict_wf (setitem d k v).
Proof.
  unfold dict_wf. rewrite !distinct_NoDup, dict_keys_setitem.
  destruct (dict_has d k) eqn:E; [tauto|].
  intros H. apply (Permutation_NoDup (l := k :: dict_keys d)).
  - apply Permutation_cons_append.
  - constructor; [|exact H]. rewrite <- dict_has_In. congruence.
Qed.

Lemma setdefault_wf d k v : dict_wf d -> dict_wf (setdefault d k v).
Proof.
  unfold setdefault. destruct (dict_has d k); [tauto|apply setitem_wf].
Qed.

Lemma dict_get_setdefault d k v k' :
  dict_get (setdefault d k v) k'
  = match dict_get d k' with
    | Some w => Some w
    | None => if String.eqb k' k then Some v else None
    end.
Proof.
  unfold setdefault, dict_has. destruct (dict_get d k) as [w|] eqn:E.
  - destruct (dict_get d k') eqn:E'; [reflexivity|].
    destruct (String.eqb_spec k' k); [congruence|reflexivity].
  - destruct (String.eqb_spec k' k) as [->|Hne].
    + now rewrite dict_get_setitem_eq, E.
    + rewrite dict_get_setitem_neq by exact Hne. now destruct (dict_get d k').
Qed.

Lemma In_setdefault d k v kv :
  In kv (setdefault d k v) -> In kv d \/ kv = (k, v).
Proof.
  unfold setdefault. destruct (dict_has d k); [tauto|apply In_setitem].
Qed.

Lemma wf_perm d1 d2 : Permutation d1 d2 -> dict_wf d1 -> dict_wf d2.
Proof.
  unfold dict_wf. rewrite !distinct_NoDup. intros Hp.
  apply Permutation_NoDup. now apply Permutation_map.
Qed.

(** ** get_key *)

(** The comprehension of [get_key] visits the entries of the dict: on a dict
    it yields the fragment of every entry, in the order of the dict. *)
Lemma fragments_of_entries d l :
  (forall k v, In (k, v) l -> dict_get d k = Some v) ->
  comprehension (fun key => v <- getitem d key ;; Ok (fragment (key, v)))
                (dict_keys l)
  = Ok (map fragment l).
Proof.
  induction l as [|[k v] l IH]; intros H; simpl; [reflexivity|].
  unfold getitem at 1. rewrite (H k v) by now left. simpl.
  rewrite IH; [reflexivity|]. intros k' v' Hin. apply H. now right.
Qed.

Lemma get_key_of_dict d :
  dict_wf d -> d <> [] ->
  get_key (Some d) = Ok (MD5.hexdigest (join (sorted (map fragment d)))).
Proof.
  intros Hwf Hne. unfold get_key.
  destruct d as [|kv d]; [congruence|].
  rewrite fragments_of_entries; [reflexivity|].
  intros k v. now apply dict_get_wf.
Qed.

(** [get_key] never raises. *)
Lemma get_key_total o : exists key, get_key o = Ok key.
Proof.
  destruct o as [[|kv d]|]; try (eexists; reflexivity).
  unfold get_key.
  assert (H : forall l, incl l (dict_keys (kv :: d)) ->
            exists frs,
              comprehension
                (fun key => v <- getitem (kv :: d) key ;; Ok (fragment (key, v)))
                l = Ok frs).
  { induction l as [|k l IH]; intros Hl; [eexists; reflexivity|].
    cbn [comprehension]. unfold getitem at 1.
    destruct (dict_get (kv :: d) k) as [v|] eqn:E.
    - destruct IH as [frs ->]; [intros x Hx; apply Hl; now right|].
      eexists; reflexivity.
    - apply dict_get_None in E. exfalso. apply E, Hl. now left. }
  destruct (H (dict_keys (kv :: d))) as [frs ->]; [apply incl_refl|].
  eexists; reflexivity.
Qed.

Lemma append_empty s : s ++ EmptyString = s.
Proof. induction s as [|c s IH]; simpl; [reflexivity|now rewrite IH]. Qed.

Lemma join_concat l : join l = String.concat EmptyString l.
Proof.
  induction l as [|x l IH]; [reflexivity|].
  cbn [join]. rewrite IH. destruct l as [|y l].
  - apply append_empty.
  - reflexivity.
Qed.

Lemma is_hex_In c :
  is_hex c = true -> In c (list_ascii_of_string "0123456789abcdef").
Proof.
  unfold is_hex. rewrite existsb_exists. intros (x & Hx & E).
  apply Ascii.eqb_eq in E. now subst.
Qed.

(** C3.  [get_key] returns the literal ["default"] when the overrides are
    absent or empty.  On a non-empty dict it returns the MD5 digest, 32
    lower-case hexadecimal characters, of the concatenation without separator
    of the strings ["<name>-<str(value)>"] of its entries arranged in
    lexicographic order.  The three digests at the end are those of
    ["PREFER_DATES_FROM-past"], of
    ["A-1B-xC-TrueF-FalseN--12Z-None"] and of a text of 101 bytes. *)
Theorem get_key_default_or_md5 :
  get_key None = Ok "default"
  /\ get_key (Some []) = Ok "default"
  /\ (forall d, dict_wf d -> d <> [] ->
       exists frags key,
         Permutation frags
           (map (fun kv => fst kv ++ "-" ++ py_str (snd kv)) d)
         /\ StronglySorted (fun a b => String.leb a b = true) frags
         /\ key = MD5.hexdigest (String.concat EmptyString frags)
         /\ get_key (Some d) = Ok key
         /\ String.length key = 32%nat
         /\ forall c, In c (list_ascii_of_string key) ->
                      In c (list_ascii_of_string "0123456789abcdef"))
  /\ get_key (Some [("PREFER_DATES_FROM", VStr "past")])
     = Ok "391dbbdfd5b7cb62836f002db49e9c7b"
  /\ get_key (Some [("B", VStr "x"); ("Z", VNone); ("C", VBool true);
                    ("N", VInt (-12)); ("A", VInt 1); ("F", VBool false)])
     = Ok "3490853ee64d5273c9cd6c20ef32df53"
  /\ get_key (Some [("TIMEZONE", VStr "Europe/Amsterdam");
                    ("PREFER_DAY_OF_MONTH", VStr "first");
                    ("RETURN_AS_TIMEZONE_AWARE", VBool true);
                    ("PREFER_DATES_FROM", VStr "past")])
     = Ok "a6175f848a3d970678654c784f9256cc".
Proof.
  split; [reflexivity|]. split; [reflexivity|].
  split; [|repeat split; vm_compute; reflexivity].
  intros d Hwf Hne.
  exists (sorted (map fragment d)), (MD5.hexdigest (join (sorted (map fragment d)))).
  split; [apply sorted_perm|]. split; [apply sorted_is_sorted|].
  split; [now rewrite join_concat|].
  split; [now apply get_key_of_dict|].
  destruct (hexdigest_shape (join (sorted (map fragment d)))) as [Hl Hh].
  split; [exact Hl|]. intros c Hc. apply is_hex_In.
  rewrite forallb_forall in Hh. now apply Hh.
Qed.

(** Two dicts that hold the same entries, inserted in whatever order, have
    the same key. *)
Lemma get_key_order_independent m1 m2 :
  dict_wf m1 -> Permutation m1 m2 ->
  get_key (Some m1) = get_key (Some m2).
Proof.
  intros Hwf Hp.
  destruct m1 as [|kv m1].
  - apply Permutation_nil in Hp. now subst.
  - assert (Hne : m2 <> []).
    { intros ->. apply Permutation_sym, Permutation_nil in Hp. discriminate. }
    rewrite !get_key_of_dict; try assumption; try discriminate.
    + do 3 f_equal. apply sorted_of_perm. now apply Permutation_map.
    + exact (wf_perm _ _ Hp Hwf).
Qed.

(** C10.  [get_key] is not injective: a value and its [str()] text give the
    same key, and so do dicts whose fragments read the same once written one
    after the other. *)
Theorem get_key_not_injective :
  ([("A", VInt 1)] <> [("A", VStr "1")]
   /\ get_key (Some [("A", VInt 1)]) = get_key (Some [("A", VStr "1")]))
  /\ ([("a", VStr "b-c")] <> [("a-b", VStr "c")]
      /\ get_key (Some [("a", VStr "b-c")]) = get_key (Some [("a-b", VStr "c")]))
  /\ ([("a", VStr "x"); ("b", VStr "y")] <> [("a", VStr "xb-y")]
      /\ get_key (Some [("a", VStr "x"); ("b", VStr "y")])
         = get_key (Some [("a", VStr "xb-y")])).
Proof.
  repeat split; try discriminate; reflexivity.
Qed.

(** ** Instances *)

Lemma In_updateall l : forall self kv,
  In kv (_updateall self l) -> In kv self \/ In kv l.
Proof.
  induction l as [|[k v] l IH]; intros self kv; simpl; [tauto|].
  intros H. apply IH in H. destruct H as [H|H]; [|right; now right].
  apply In_setitem in H. destruct H as [H|H]; [now left|right; now left].
Qed.

Lemma updateall_keeps l : forall self k,
  In k (dict_keys self) \/ In k (dict_keys l) ->
  In k (dict_keys (_updateall self l)).
Proof.
  induction l as [|[k' v'] l IH]; intros self k; simpl; [tauto|].
  intros H. apply IH. unfold setattr. rewrite dict_keys_setitem. simpl.
  destruct (dict_has self k') eqn:E.
  - apply dict_has_In in E. destruct H as [H|[<-|H]]; tauto.
  - rewrite in_app_iff. simpl. tauto.
Qed.

(** Setting the entries of a dict one by one on a fresh instance gives the
    instance that dict as its dictionary. *)
Lemma updateall_wf l : forall self,
  NoDup (dict_keys (self ++ l)%list) -> _updateall self l = (self ++ l)%list.
Proof.
  induction l as [|[k v] l IH]; intros self H; simpl.
  - now rewrite app_nil_r.
  - assert (Hk : ~ In k (dict_keys self)).
    { unfold dict_keys in *. rewrite map_app in H. simpl in H.
      apply NoDup_remove_2 in H. rewrite in_app_iff in H. tauto. }
    unfold setattr. simpl. rewrite (setitem_fresh _ _ _ Hk).
    rewrite IH; rewrite <- app_assoc; [reflexivity|exact H].
Qed.

Lemma Settings_of_dict d : dict_wf d -> d <> [] -> Settings (Some d) = d.
Proof.
  intros Hwf Hne. destruct d as [|kv d]; [congruence|].
  unfold Settings, __init__. apply updateall_wf.
  now apply distinct_NoDup.
Qed.

(** The base instance carries every name of the option table, and nothing
    but entries of the table. *)
Lemma settings_complete x :
  In x (dict_keys pyfile_settings) -> exists v, getattr settings x = Ok v.
Proof.
  intros H. unfold getattr.
  assert (Hin : In x (dict_keys settings)).
  { unfold settings, Settings, __init__, _get_settings_from_pyfile.
    apply updateall_keeps. now right. }
  destruct (dict_get settings x) as [v|] eqn:E; [now exists v|].
  apply dict_get_None in E. contradiction.
Qed.

Lemma settings_entries kv : In kv settings -> In kv pyfile_settings.
Proof.
  unfold settings, Settings, __init__, _get_settings_from_pyfile.
  intros H. apply In_updateall in H. destruct H as [[]|H]; exact H.
Qed.

Lemma settings_lacks k :
  dict_has pyfile_settings k = false -> dict_get settings k = None.
Proof.
  intros H. destruct (dict_get settings k) as [v|] eqn:E; [|reflexivity].
  apply dict_get_In, settings_entries in E.
  apply (in_map fst) in E. apply dict_has_In in E. simpl in E. congruence.
Qed.

(** ** replace *)

Lemma is_None_true v : is_None v = true -> v = VNone.
Proof. destruct v; simpl; congruence. Qed.

(** The first loop of [replace] passes a dict without [None] ... *)
Lemma check_passes kwds :
  no_None kwds = true ->
  for_each (fun (_ : unit) kv =>
              if is_None (snd kv) then Raise (TypeError (invalid_msg (fst kv)))
              else Ok tt) kwds tt = Ok tt.
Proof.
  induction kwds as [|[k v] kwds IH]; simpl; [reflexivity|].
  rewrite andb_true_iff, negb_true_iff. intros [-> H]. simpl. now apply IH.
Qed.

(** ... and stops at the first entry that holds [None], naming it. *)
Lemma check_raises kwds :
  no_None kwds = false ->
  exists k,
    In (k, VNone) kwds
    /\ for_each (fun (_ : unit) kv =>
                   if is_None (snd kv)
                   then Raise (TypeError (invalid_msg (fst kv)))
                   else Ok tt) kwds tt = Raise (TypeError (invalid_msg k)).
Proof.
  induction kwds as [|[k v] kwds IH]; simpl; [discriminate|].
  destruct (is_None v) eqn:E; simpl.
  - intros _. exists k. apply is_None_true in E. subst. split; [now left|reflexivity].
  - intros H. destruct (IH H) as (k' & Hin & Hr). exists k'. split; [now right|exact Hr].
Qed.

(** The second loop of [replace]: what the dict of keyword arguments holds
    once the defaults are filled in. *)
Lemma defaults_filled self names : forall kwds res,
  for_each (fun kwds x => v <- getattr self x ;; Ok (setdefault kwds x v))
           names kwds = Ok res ->
  (forall k,
      dict_get res k
      = match dict_get kwds k with
        | Some v => Some v
        | None =>
            if existsb (String.eqb k) names
            then match getattr self k with Ok v => Some v | Raise _ => None end
            else None
        end)
  /\ (dict_wf kwds -> dict_wf res)
  /\ (forall k v, In (k, v) res -> In (k, v) kwds \/ getattr self k = Ok v).
Proof.
  induction names as [|x names IH]; intros kwds res; simpl.
  - intros [= <-]. split; [|split; [tauto|intros; now left]].
    intros k. now destruct (dict_get kwds k).
  - destruct (getattr self x) as [v|e] eqn:Ex; simpl; [|discriminate].
    intros H. destruct (IH _ _ H) as (Hget & Hwf & Hin).
    split; [|split].
    + intros k. rewrite Hget, dict_get_setdefault.
      destruct (dict_get kwds k) as [w|]; [reflexivity|].
      destruct (String.eqb_spec k x) as [->|_]; simpl; [|reflexivity].
      now rewrite Ex.
    + intros Hk. now apply Hwf, setdefault_wf.
    + intros k w Hkw. destruct (Hin _ _ Hkw) as [H1|H1]; [|now right].
      apply In_setdefault in H1. destruct H1 as [H1|[= -> ->]]; [now left|now right].
Qed.

Lemma defaults_fill self names : forall kwds,
  (forall x, In x names -> exists v, getattr self x = Ok v) ->
  exists res,
    for_each (fun kwds x => v <- getattr self x ;; Ok (setdefault kwds x v))
             names kwds = Ok res.
Proof.
  induction names as [|x names IH]; intros kwds H; simpl.
  - now exists kwds.
  - destruct (H x) as [v ->]; [now left|]. simpl.
    apply IH. intros y Hy. apply H. now right.
Qed.

Lemma no_None_false kwds :
  no_None kwds = false <-> exists k, In (k, VNone) kwds.
Proof.
  induction kwds as [|[k v] kwds IH]; simpl.
  - split; [discriminate|intros [k []]].
  - rewrite andb_false_iff, negb_false_iff, IH. split.
    + intros [H|[k' H]].
      * apply is_None_true in H. subst. exists k. now left.
      * exists k'. now right.
    + intros [k' [[= -> ->]|H]]; [now left|right; now exists k'].
Qed.

Lemma no_None_true kwds :
  no_None kwds = true <-> forall k v, In (k, v) kwds -> v <> VNone.
Proof.
  unfold no_None. rewrite forallb_forall. split.
  - intros H k v Hin ->. now apply H in Hin.
  - intros H [k v] Hin. simpl. destruct v; try reflexivity.
    now apply H in Hin.
Qed.

(** What [replace] returns when its loops raise nothing: the instance whose
    dictionary is the dict of keyword arguments, defaults and bookkeeping
    included. *)
Lemma replace_lookup self mod_settings kwds :
  (forall x, In x (dict_keys pyfile_settings) -> exists v, getattr self x = Ok v) ->
  dict_wf kwds -> no_None kwds = true ->
  exists s,
    replace self mod_settings kwds = Ok s
    /\ forall k,
        dict_get s k
        = if String.eqb k "_mod_settings" && truthy mod_settings
          then Some mod_settings
          else if String.eqb k "_default" then Some (VBool false)
          else match dict_get kwds k with
               | Some v => Some v
               | None =>
                   if existsb (String.eqb k) (dict_keys pyfile_settings)
                   then match getattr self k with
                        | Ok v => Some v
                        | Raise _ => None
                        end
                   else None
               end.
Proof.
  intros Hself Hwf Hnn. unfold replace, _get_settings_from_pyfile.
  rewrite (check_passes _ Hnn). cbn [bind].
  destruct (defaults_fill self _ kwds Hself) as [res Hres].
  rewrite Hres. cbn [bind].
  destruct (defaults_filled _ _ _ _ Hres) as (Hget & Hwf' & _).
  specialize (Hwf' Hwf).
  eexists. split; [reflexivity|]. intros k.
  rewrite Settings_of_dict.
  - destruct (truthy mod_settings); rewrite ?andb_true_r, ?andb_false_r.
    + destruct (String.eqb_spec k "_mod_settings") as [->|Hne].
      * apply dict_get_setitem_eq.
      * rewrite dict_get_setitem_neq by exact Hne.
        destruct (String.eqb_spec k "_default") as [->|Hne'].
        -- apply dict_get_setitem_eq.
        -- rewrite dict_get_setitem_neq by exact Hne'. apply Hget.
    + destruct (String.eqb_spec k "_default") as [->|Hne'].
      * apply dict_get_setitem_eq.
      * rewrite dict_get_setitem_neq by exact Hne'. apply Hget.
  - destruct (truthy mod_settings); repeat apply setitem_wf; exact Hwf'.
  - destruct (truthy mod_settings); apply setitem_not_nil.
Qed.

(** Where the values of the instance [replace] returns come from. *)
Lemma replace_values self mod_settings kwds s :
  replace self mod_settings kwds = Ok s ->
  forall k v,
    In (k, v) s ->
    (In (k, v) kwds /\ no_None kwds = true)
    \/ getattr self k = Ok v
    \/ v = VBool false
    \/ (v = mod_settings /\ truthy mod_settings = true).
Proof.
  unfold replace, _get_settings_from_pyfile.
  destruct (no_None kwds) eqn:Hnn.
  - rewrite (check_passes _ Hnn). cbn [bind].
    destruct (for_each _ (dict_keys pyfile_settings) kwds) as [res|e] eqn:Hres;
      cbn [bind]; [|discriminate].
    destruct (defaults_filled _ _ _ _ Hres) as (_ & _ & Hin).
    intros [= <-] k v Hkv.
    assert (Hk : In (k, v) (if truthy mod_settings
                            then setitem (setitem res "_default" (VBool false))
                                         "_mod_settings" mod_settings
                            else setitem res "_default" (VBool false))).
    { revert Hkv. unfold Settings, __init__.
      destruct (if truthy mod_settings then _ else _) as [|kv d] eqn:E.
      - exfalso. revert E. destruct (truthy mod_settings); apply setitem_not_nil.
      - intros H. apply In_updateall in H. destruct H as [[]|H]; exact H. }
    assert (Hd : In (k, v) (setitem res "_default" (VBool false)) ->
                 (In (k, v) kwds /\ true = true) \/ getattr self k = Ok v
                 \/ v = VBool false \/ (v = mod_settings /\ truthy mod_settings = true)).
    { intros H. apply In_setitem in H. destruct H as [H|[= _ ->]]; [|tauto].
      destruct (Hin _ _ H); tauto. }
    destruct (truthy mod_settings) eqn:Et; [|now apply Hd].
    apply In_setitem in Hk. destruct Hk as [Hk|[= _ ->]]; [now apply Hd|tauto].
  - destruct (check_raises _ Hnn) as (k0 & _ & ->). discriminate.
Qed.

(** [replace] raises a [TypeError] only from its first loop. *)
Lemma replace_TypeError self mod_settings kwds msg :
  replace self mod_settings kwds = Raise (TypeError msg) ->
  exists k, In (k, VNone) kwds /\ msg = invalid_msg k.
Proof.
  unfold replace, _get_settings_from_pyfile.
  destruct (no_None kwds) eqn:Hnn.
  - rewrite (check_passes _ Hnn). cbn [bind].
    assert (H : forall names kw e,
              for_each (fun kwds x => v <- getattr self x ;; Ok (setdefault kwds x v))
                       names kw = Raise e -> exists m, e = AttributeError m).
    { induction names as [|x names IH]; intros kw e; simpl; [discriminate|].
      unfold getattr at 1.
      destruct (dict_get self x); cbn [bind]; [apply IH|].
      destruct (class_attr x); cbn [bind]; [apply IH|].
      intros [= <-]. eexists; reflexivity. }
    destruct (for_each _ (dict_keys pyfile_settings) kwds) as [res|e] eqn:Hres;
      cbn [bind]; [discriminate|].
    intros [= ->]. apply H in Hres. destruct Hres as [m Hm]. discriminate.
  - destruct (check_raises _ Hnn) as (k & Hin & ->).
    intros [= <-]. now exists k.
Qed.

Lemma option_name_spec k :
  option_name k = true <-> k <> "_default" /\ k <> "_mod_settings".
Proof.
  unfold option_name.
  rewrite andb_true_iff, !negb_true_iff, !String.eqb_neq. tauto.
Qed.

(** [replace] on the base instance, option by option. *)
Lemma overlay_on_base mod_settings kwds :
  dict_wf kwds -> no_None kwds = true ->
  exists s,
    replace settings mod_settings kwds = Ok s
    /\ (forall x, In x (dict_keys pyfile_settings) -> dict_has s x = true)
    /\ (forall k v, option_name k = true ->
                    dict_get kwds k = Some v -> getattr s k = Ok v)
    /\ (forall k, option_name k = true ->
                  dict_get kwds k = None -> getattr s k = getattr settings k)
    /\ getattr s "_default" = Ok (VBool false)
    /\ (truthy mod_settings = true ->
        getattr s "_mod_settings" = Ok mod_settings).
Proof.
  intros Hwf Hnn.
  destruct (replace_lookup settings mod_settings kwds settings_complete Hwf Hnn)
    as (s & Hs & Hget).
  assert (Hother : forall k, option_name k = true ->
            dict_get kwds k = None -> getattr s k = getattr settings k).
  { intros k Hk Hnone. apply option_name_spec in Hk. destruct Hk as [Hd Hm].
    unfold getattr at 1. rewrite Hget, Hnone.
    destruct (String.eqb_spec k "_mod_settings"); [contradiction|].
    destruct (String.eqb_spec k "_default"); [contradiction|]. simpl.
    destruct (existsb (String.eqb k) (dict_keys pyfile_settings)) eqn:E.
    - apply mem_In, settings_complete in E. destruct E as [v E].
      now rewrite E.
    - assert (Hl : dict_get settings k = None).
      { apply settings_lacks. destruct (dict_has pyfile_settings k) eqn:Eh;
          [|reflexivity].
        apply dict_has_In, mem_In in Eh. congruence. }
      unfold getattr. now rewrite Hl. }
  exists s. split; [exact Hs|]. split; [|split; [|split; [exact Hother|split]]].
  - intros x Hx. unfold dict_has. rewrite Hget.
    destruct (String.eqb x "_mod_settings" && truthy mod_settings);
      [reflexivity|].
    destruct (String.eqb x "_default"); [reflexivity|].
    destruct (dict_get kwds x); [reflexivity|].
    apply mem_In in Hx as Hm. rewrite Hm.
    destruct (settings_complete x Hx) as [v ->]. reflexivity.
  - intros k v Hk Hsome. apply option_name_spec in Hk. destruct Hk as [Hd Hm].
    unfold getattr. rewrite Hget, Hsome.
    destruct (String.eqb_spec k "_mod_settings"); [contradiction|].
    destruct (String.eqb_spec k "_default"); [contradiction|]. reflexivity.
  - unfold getattr. rewrite Hget. simpl.
    destruct (truthy mod_settings); reflexivity.
  - intros Ht. unfold getattr. rewrite Hget, Ht. reflexivity.
Qed.


(** C1.  On the base instance, [replace] with keyword arguments that hold no
    [None] returns an instance that carries every name of the option table;
    an option named among the keyword arguments holds the value given, every
    other option reads as on the base instance, and [_default] is [False].
    With no keyword argument at all every option reads as on the base
    instance.  (The names of options are those other than [_default] and
    [_mod_settings], which [replace] sets itself.) *)
Theorem replace_on_base mod_settings kwds :
  dict_wf kwds -> no_None kwds = true ->
  exists s,
    replace settings mod_settings kwds = Ok s
    /\ (forall x, In x (dict_keys pyfile_settings) -> dict_has s x = true)
    /\ (forall k v, option_name k = true ->
                    dict_get kwds k = Some v -> getattr s k = Ok v)
    /\ (forall k, option_name k = true ->
                  dict_get kwds k = None -> getattr s k = getattr settings k)
    /\ getattr s "_default" = Ok (VBool false)
    /\ (kwds = [] ->
        forall k, option_name k = true -> getattr s k = getattr settings k).
Proof.
  intros Hwf Hnn.
  destruct (overlay_on_base mod_settings kwds Hwf Hnn)
    as (s & Hs & Hall & Hnew & Hold & Hdef & _).
  exists s. repeat split; try assumption.
  intros -> k Hk. now apply Hold.
Qed.

Lemma string_length_append s t :
  String.length (s ++ t) = (String.length s + String.length t)%nat.
Proof. induction s as [|c s IH]; simpl; [reflexivity|now rewrite IH]. Qed.

Lemma string_append_cancel t : forall s s', s ++ t = s' ++ t -> s = s'.
Proof.
  induction s as [|c s IH]; intros [|c' s'] H; simpl in H.
  - reflexivity.
  - apply (f_equal String.length) in H. simpl in H.
    rewrite string_length_append in H. lia.
  - apply (f_equal String.length) in H. simpl in H.
    rewrite string_length_append in H. lia.
  - injection H as -> H. f_equal. now apply IH.
Qed.

Lemma invalid_msg_names k k' : invalid_msg k = invalid_msg k' -> k = k'.
Proof.
  unfold invalid_msg. simpl. intros H.
  repeat (injection H as H).
  change (k ++ (dquote ++ ": None}") = k' ++ (dquote ++ ": None}")) in H.
  now apply string_append_cancel in H.
Qed.

(** The text of the message, character by character: the name stands
    between two double quotes (the character of code 34). *)
Lemma invalid_msg_text k :
  invalid_msg k
  = "Invalid {" ++ String "034"%char (k ++ String "034"%char ": None}").
Proof. reflexivity. Qed.

(** C2.  [replace] raises the [TypeError] of its first loop exactly when some
    keyword argument holds [None]; the message is [Invalid {"k": None}] for
    such an argument [k], and it determines [k].  On the base instance,
    keyword arguments without [None] raise nothing. *)
Theorem replace_raises_iff_None self mod_settings kwds :
  ((exists msg, replace self mod_settings kwds = Raise (TypeError msg))
   <-> exists k, In (k, VNone) kwds)
  /\ (forall msg,
        replace self mod_settings kwds = Raise (TypeError msg) ->
        exists k,
          In (k, VNone) kwds
          /\ msg = invalid_msg k
          /\ msg = "Invalid {"
                   ++ String "034"%char (k ++ String "034"%char ": None}"))
  /\ (forall k k' : string,
        "Invalid {" ++ String "034"%char (k ++ String "034"%char ": None}")
        = "Invalid {" ++ String "034"%char (k' ++ String "034"%char ": None}")
        -> k = k')
  /\ replace self mod_settings [("X", VNone)]
     = Raise (TypeError
                ("Invalid {"
                 ++ String "034"%char ("X" ++ String "034"%char ": None}")))
  /\ ((forall k, ~ In (k, VNone) kwds) ->
      exists s, replace settings mod_settings kwds = Ok s).
Proof.
  split; [split|split; [|split; [|split]]].
  - intros [msg H]. apply replace_TypeError in H.
    destruct H as (k & Hin & _). now exists k.
  - intros H. apply no_None_false in H.
    destruct (check_raises _ H) as (k & _ & Hr).
    exists (invalid_msg k). unfold replace. now rewrite Hr.
  - intros msg H. apply replace_TypeError in H.
    destruct H as (k & Hin & ->). exists k.
    split; [exact Hin|]. split; [reflexivity|apply invalid_msg_text].
  - intros k k' H. rewrite <- !invalid_msg_text in H.
    now apply invalid_msg_names.
  - reflexivity.
  - intros H.
    assert (Hnn : no_None kwds = true).
    { destruct (no_None kwds) eqn:E; [reflexivity|].
      apply no_None_false in E. destruct E as [k E]. now apply H in E. }
    unfold replace, _get_settings_from_pyfile.
    rewrite (check_passes _ Hnn). cbn [bind].
    destruct (defaults_fill settings _ kwds settings_complete) as [res ->].
    cbn [bind]. eexists; reflexivity.
Qed.

(** ** apply_settings *)

Lemma getitem_setitem d k v : getitem (setitem d k v) k = Ok v.
Proof. unfold getitem. now rewrite dict_get_setitem_eq. Qed.

(** The four ways through the wrapper, by what [kwargs.get('settings')] is. *)
Lemma apply_settings_falsy {R : Type} (f : list value -> dict -> result R)
  args kwargs :
  truthy (get kwargs "settings") = false ->
  apply_settings f args kwargs
  = f args (setitem kwargs "settings" (VInst settings)).
Proof.
  intros H. unfold apply_settings, py_or. rewrite H.
  rewrite getitem_setitem. cbn [bind]. now rewrite getitem_setitem.
Qed.

Lemma apply_settings_dict {R : Type} (f : list value -> dict -> result R)
  args kwargs d :
  get kwargs "settings" = VDict d -> d <> [] ->
  apply_settings f args kwargs
  = (r <- call_replace settings (VDict d) d ;;
     f args (setitem kwargs "settings" (VInst r))).
Proof.
  intros H Hne. unfold apply_settings, py_or. rewrite H.
  assert (Ht : truthy (VDict d) = true) by (destruct d; [congruence|reflexivity]).
  rewrite Ht, getitem_setitem. cbn [bind].
  destruct (call_replace settings (VDict d) d) as [r|e]; cbn [bind];
    [|reflexivity].
  now rewrite setitem_setitem, getitem_setitem.
Qed.

Lemma apply_settings_instance {R : Type} (f : list value -> dict -> result R)
  args kwargs s :
  dict_get kwargs "settings" = Some (VInst s) ->
  apply_settings f args kwargs = f args kwargs.
Proof.
  intros H. unfold apply_settings, py_or, get. rewrite H. simpl truthy. cbv iota.
  rewrite (setitem_same _ _ _ H). unfold getitem. rewrite H. cbn [bind].
  now rewrite H.
Qed.

Lemma apply_settings_other {R : Type} (f : list value -> dict -> result R)
  args kwargs :
  truthy (get kwargs "settings") = true ->
  isinstance_dict (get kwargs "settings") = false ->
  isinstance_Settings (get kwargs "settings") = false ->
  apply_settings f args kwargs = Raise (TypeError settings_type_msg).
Proof.
  intros Ht Hd Hs. unfold apply_settings, py_or. rewrite Ht.
  rewrite getitem_setitem. cbn [bind].
  destruct (get kwargs "settings"); try discriminate;
    cbn [bind]; rewrite getitem_setitem; reflexivity.
Qed.

Lemma call_replace_error self mod_settings d msg :
  call_replace self mod_settings d = Raise (TypeError msg) ->
  msg <> settings_type_msg.
Proof.
  unfold call_replace.
  destruct (dict_has d "mod_settings"); [intros [= <-]; discriminate|].
  destruct (dict_has d "self"); [intros [= <-]; discriminate|].
  intros H. apply replace_TypeError in H. destruct H as (k & _ & ->).
  discriminate.
Qed.

(** C5.  Called with a dict [m] under [settings] that holds no [None] and no
    entry named [mod_settings] or [self], the wrapper calls [f] with an
    instance on which every option named in [m] holds the value [m] gives it
    and every other option reads as on the base instance; the instance
    holds [m] itself under [_mod_settings], so the key of its overrides is
    the key of [m]. *)
Theorem apply_settings_with_dict {R : Type}
  (f : list value -> dict -> result R) args kwargs m :
  dict_get kwargs "settings" = Some (VDict m) ->
  dict_wf m -> no_None m = true ->
  dict_has m "mod_settings" = false -> dict_has m "self" = false ->
  dict_has pyfile_settings "_mod_settings" = false ->
  exists s,
    apply_settings f args kwargs
    = f args (setitem kwargs "settings" (VInst s))
    /\ (forall k v, option_name k = true ->
                    dict_get m k = Some v -> getattr s k = Ok v)
    /\ (forall k, option_name k = true ->
                  dict_get m k = None -> getattr s k = getattr settings k)
    /\ getattr s "_mod_settings" = Ok (VDict m)
    /\ (forall d, getattr s "_mod_settings" = Ok (VDict d) ->
                  get_key (Some d) = get_key (Some m)).
Proof.
  intros Hk Hwf Hnn Hms Hself Htab.
  assert (Hg : get kwargs "settings" = VDict m) by (unfold get; now rewrite Hk).
  destruct m as [|kv m].
  - exists settings. split; [|split; [|split; [|split]]].
    + apply apply_settings_falsy. now rewrite Hg.
    + intros k v _. discriminate.
    + reflexivity.
    + unfold getattr. now rewrite (settings_lacks _ Htab).
    + unfold getattr. rewrite (settings_lacks _ Htab). simpl. now intros d [= <-].
  - destruct (overlay_on_base (VDict (kv :: m)) (kv :: m) Hwf Hnn)
      as (s & Hs & _ & Hnew & Hold & _ & Hmod).
    specialize (Hmod eq_refl).
    exists s. split; [|split; [exact Hnew|split; [exact Hold|split]]].
    + rewrite (apply_settings_dict f args kwargs _ Hg) by discriminate.
      unfold call_replace. now rewrite Hms, Hself, Hs.
    + exact Hmod.
    + rewrite Hmod. now intros d [= <-].
Qed.

(** C6.  Called without [settings], or with a false value under it ([None],
    the empty dict, [0] and [False] are such values), the wrapper calls [f]
    with the base instance under [settings]: the positional arguments and the
    other keyword arguments are those of the caller.  The base instance reads
    [_default] from the class, where it is [True]. *)
Theorem apply_settings_without_settings {R : Type}
  (f : list value -> dict -> result R) args kwargs :
  (dict_get kwargs "settings" = None
   \/ exists v, dict_get kwargs "settings" = Some v /\ truthy v = false) ->
  apply_settings f args kwargs
  = f args (setitem kwargs "settings" (VInst settings))
  /\ (forall k, k <> "settings" ->
                dict_get (setitem kwargs "settings" (VInst settings)) k
                = dict_get kwargs k)
  /\ (dict_has pyfile_settings "_default" = false ->
      getattr settings "_default" = Ok (VBool true))
  /\ (truthy VNone = false /\ truthy (VDict []) = false
      /\ truthy (VInt 0) = false /\ truthy (VBool false) = false).
Proof.
  intros H. split; [|split; [|split]].
  - apply apply_settings_falsy. unfold get.
    destruct H as [->|(v & -> & Hv)]; [reflexivity|exact Hv].
  - intros k Hne. now apply dict_get_setitem_neq.
  - intros Ht. unfold getattr. now rewrite (settings_lacks _ Ht).
  - repeat split.
Qed.

(** C7.  The wrapper raises its [TypeError] exactly when the value under
    [settings] is true and is neither a dict nor an instance of [Settings];
    the message is the same whatever the value is. *)
Theorem apply_settings_type_error args kwargs :
  (apply_settings probe args kwargs = Raise (TypeError settings_type_msg)
   <-> exists v,
        dict_get kwargs "settings" = Some v /\ truthy v = true
        /\ isinstance_dict v = false /\ isinstance_Settings v = false)
  /\ (forall (R : Type) (f : list value -> dict -> result R) v,
        dict_get kwargs "settings" = Some v -> truthy v = true ->
        isinstance_dict v = false -> isinstance_Settings v = false ->
        apply_settings f args kwargs = Raise (TypeError settings_type_msg)).
Proof.
  assert (Hraise : forall (R : Type) (f : list value -> dict -> result R) v,
            dict_get kwargs "settings" = Some v -> truthy v = true ->
            isinstance_dict v = false -> isinstance_Settings v = false ->
            apply_settings f args kwargs = Raise (TypeError settings_type_msg)).
  { intros R f v Hk Ht Hd Hs.
    assert (Hg : get kwargs "settings" = v) by (unfold get; now rewrite Hk).
    apply apply_settings_other; now rewrite Hg. }
  split; [split|exact Hraise].
  - intros H.
    destruct (dict_get kwargs "settings") as [v|] eqn:Hk.
    + exists v. split; [reflexivity|].
      assert (Hg : get kwargs "settings" = v) by (unfold get; now rewrite Hk).
      destruct (truthy v) eqn:Ht.
      * destruct v as [| | | |d|s| ]; try (repeat split; reflexivity).
        -- exfalso. destruct d as [|kv d]; [discriminate|].
           rewrite (apply_settings_dict probe args kwargs _ Hg) in H
             by discriminate.
           destruct (call_replace settings (VDict (kv :: d)) (kv :: d))
             as [r|e] eqn:Ec; cbn [bind] in H; [discriminate|].
           injection H as ->. now apply call_replace_error in Ec.
        -- exfalso. rewrite (apply_settings_instance probe args kwargs s Hk) in H.
           discriminate.
      * exfalso. rewrite apply_settings_falsy in H by now rewrite Hg.
        discriminate.
    + exfalso. rewrite apply_settings_falsy in H.
      * discriminate.
      * unfold get. now rewrite Hk.
  - intros (v & Hk & Ht & Hd & Hs). now apply (Hraise _ probe v).
Qed.

(** C8.  A [Settings] instance under [settings] goes through the wrapper as
    it is: [f] is called with the very arguments of the caller, so what the
    wrapper hands over goes through it again unchanged. *)
Theorem apply_settings_passes_snapshot {R : Type}
  (f : list value -> dict -> result R) args kwargs s :
  dict_get kwargs "settings" = Some (VInst s) ->
  apply_settings f args kwargs = f args kwargs
  /\ apply_settings probe args kwargs = Ok (args, kwargs)
  /\ (forall args' kwargs',
        apply_settings probe args kwargs = Ok (args', kwargs') ->
        dict_get kwargs' "settings" = Some (VInst s)
        /\ apply_settings probe args' kwargs' = Ok (args', kwargs')).
Proof.
  intros H. split; [|split].
  - exact (apply_settings_instance f args kwargs s H).
  - exact (apply_settings_instance probe args kwargs s H).
  - intros args' kwargs'.
    rewrite (apply_settings_instance probe args kwargs s H).
    intros [= <- <-]. split; [exact H|].
    exact (apply_settings_instance probe args kwargs s H).
Qed.

(** ** No [None] in a snapshot *)

Lemma getattr_not_None self k v :
  no_None self = true -> getattr self k = Ok v -> v <> VNone.
Proof.
  intros Hs. unfold getattr.
  destruct (dict_get self k) as [w|] eqn:E.
  - intros [= <-]. apply dict_get_In in E.
    exact (proj1 (no_None_true self) Hs _ _ E).
  - unfold class_attr.
    destruct (String.eqb k "_default"); [intros [= <-]; discriminate|].
    destruct (String.eqb k "_pyfile_data"); [intros [= <-]; discriminate|].
    destruct (String.eqb k "_mod_settings"); [intros [= <-]; discriminate|].
    discriminate.
Qed.

Lemma replace_no_None self mod_settings kwds s :
  no_None self = true ->
  replace self mod_settings kwds = Ok s -> no_None s = true.
Proof.
  intros Hs Hr. apply no_None_true. intros k v Hin.
  destruct (replace_values _ _ _ _ Hr _ _ Hin) as [[H Hn]|[H|[->|[-> H]]]].
  - exact (proj1 (no_None_true kwds) Hn _ _ H).
  - exact (getattr_not_None _ _ _ Hs H).
  - discriminate.
  - intros ->. discriminate.
Qed.

(** What the wrapper hands over under [settings]: the base instance, the
    result of [replace] on it, or the instance the caller passed. *)
Lemma apply_settings_hands_over args kwargs args' kwargs' s :
  apply_settings probe args kwargs = Ok (args', kwargs') ->
  dict_get kwargs' "settings" = Some (VInst s) ->
  s = settings
  \/ (exists d, replace settings (VDict d) d = Ok s)
  \/ dict_get kwargs "settings" = Some (VInst s).
Proof.
  intros Ha Hk.
  destruct (truthy (get kwargs "settings")) eqn:Ht.
  - destruct (get kwargs "settings") as [| | | |d|s0| ] eqn:Hg;
      try (rewrite apply_settings_other in Ha by (now rewrite Hg); discriminate).
    + destruct d as [|kv d]; [discriminate|].
      rewrite (apply_settings_dict probe args kwargs _ Hg) in Ha by discriminate.
      destruct (call_replace settings (VDict (kv :: d)) (kv :: d))
        as [r|e] eqn:Ec; cbn [bind] in Ha; [|discriminate].
      injection Ha as <- <-. rewrite dict_get_setitem_eq in Hk.
      injection Hk as ->. right; left. exists (kv :: d).
      revert Ec. unfold call_replace.
      destruct (dict_has (kv :: d) "mod_settings"); [discriminate|].
      destruct (dict_has (kv :: d) "self"); [discriminate|tauto].
    + assert (Hk0 : dict_get kwargs "settings" = Some (VInst s0)).
      { revert Hg. unfold get.
        destruct (dict_get kwargs "settings"); [now intros ->|discriminate]. }
      rewrite (apply_settings_instance probe args kwargs s0 Hk0) in Ha.
      injection Ha as <- <-. right; right. congruence.
  - rewrite apply_settings_falsy in Ha by exact Ht.
    injection Ha as <- <-. rewrite dict_get_setitem_eq in Hk.
    injection Hk as ->. now left.
Qed.

(** C9.  When no default of the option table is [None], no snapshot the
    public surface produces holds [None], neither in its dictionary nor under
    any attribute read from it. *)
Theorem produced_without_None s :
  no_None pyfile_settings = true ->
  produced s ->
  no_None s = true /\ forall k, getattr s k <> Ok VNone.
Proof.
  intros Htab Hp.
  assert (Hs : no_None s = true).
  { induction Hp as [|self ms kwds s Hself IH Hr
                     |args kwargs args' kwargs' s Hin IH Ha Hk].
    - apply no_None_true. intros k v Hin.
      apply settings_entries in Hin.
      exact (proj1 (no_None_true _) Htab _ _ Hin).
    - exact (replace_no_None _ _ _ _ IH Hr).
    - destruct (apply_settings_hands_over _ _ _ _ _ Ha Hk) as [->|[[d Hr]|H]].
      + apply no_None_true. intros k v Hkv.
        apply settings_entries in Hkv.
        exact (proj1 (no_None_true _) Htab _ _ Hkv).
      + apply (replace_no_None settings (VDict d) d s); [|exact Hr].
        apply no_None_true. intros k v Hkv.
        apply settings_entries in Hkv.
        exact (proj1 (no_None_true _) Htab _ _ Hkv).
      + now apply IH. }
  split; [exact Hs|].
  intros k H. now apply (getattr_not_None _ _ _ Hs) in H.
Qed.

(** * Further properties of the module *)

(** ** Attributes set one after the other *)

Lemma dict_get_app d1 d2 k :
  dict_get (d1 ++ d2)%list k
  = match dict_get d1 k with Some v => Some v | None => dict_get d2 k end.
Proof.
  induction d1 as [|[k' v'] d1 IH]; simpl; [reflexivity|].
  destruct (String.eqb k k'); [reflexivity|exact IH].
Qed.

(** X1.  [_updateall] sets the attributes in the order of the iterable: a
    name given several times keeps the last value given, a name the iterable
    does not give keeps the value the instance had. *)
Theorem updateall_last_wins iterable : forall self k,
  dict_get (_updateall self iterable) k
  = match dict_get (rev iterable) k with
    | Some v => Some v
    | None => dict_get self k
    end.
Proof.
  induction iterable as [|[k' v'] l IH]; intros self k; simpl; [reflexivity|].
  fold (_updateall (setattr self k' v') l). rewrite IH, dict_get_app. simpl.
  destruct (dict_get (rev l) k); [reflexivity|].
  unfold setattr. destruct (String.eqb_spec k k') as [->|Hne].
  - apply dict_get_setitem_eq.
  - now apply dict_get_setitem_neq.
Qed.

(** X2.  The base instance reads every option as the option table gives
    it. *)
Theorem base_reads_the_table :
  dict_wf pyfile_settings ->
  forall k v, In (k, v) pyfile_settings -> getattr settings k = Ok v.
Proof.
  intros Hwf k v Hin. unfold getattr.
  assert (E : dict_get settings k = Some v).
  { unfold settings, Settings, __init__, _get_settings_from_pyfile.
    rewrite (updateall_wf pyfile_settings []) by now apply distinct_NoDup.
    now apply dict_get_wf. }
  now rewrite E.
Qed.

(** X3.  [Settings(settings=d)] with a non-empty dict takes nothing from the
    option table: the instance reads the entries of [d], and an option of
    the table that [d] leaves out is missing on it.  With an empty dict the
    test [if settings] fails and the instance is built from the table: it
    reads like the base instance. *)
Theorem Settings_from_dict d :
  dict_wf d -> d <> [] ->
  (forall k v, In (k, v) d -> getattr (Settings (Some d)) k = Ok v)
  /\ (forall x, In x (dict_keys pyfile_settings) ->
                dict_get d x = None -> class_attr x = None ->
                getattr (Settings (Some d)) x
                = Raise (AttributeError (no_attribute x)))
  /\ (forall k, getattr (Settings (Some [])) k = getattr settings k).
Proof.
  intros Hwf Hne. rewrite (Settings_of_dict _ Hwf Hne).
  split; [|split; [|reflexivity]].
  - intros k v Hin. unfold getattr. now rewrite (dict_get_wf _ _ _ Hwf Hin).
  - intros x _ Hx Hc. unfold getattr. now rewrite Hx, Hc.
Qed.

(** ** The two loops of replace *)

Lemma check_stops_at pre k post :
  no_None pre = true ->
  for_each (fun (_ : unit) kv =>
              if is_None (snd kv) then Raise (TypeError (invalid_msg (fst kv)))
              else Ok tt) (pre ++ (k, VNone) :: post)%list tt
  = Raise (TypeError (invalid_msg k)).
Proof.
  induction pre as [|[k' v'] pre IH]; simpl; [reflexivity|].
  rewrite andb_true_iff, negb_true_iff. intros [-> H]. simpl. now apply IH.
Qed.

(** X4.  [replace] reports the first keyword argument that holds [None], in
    the order the arguments were given, whatever the instance is: the check
    runs before any attribute of the instance is read.  The message
    determines the name. *)
Theorem replace_reports_first_None self mod_settings pre k post :
  no_None pre = true ->
  replace self mod_settings (pre ++ (k, VNone) :: post)%list
  = Raise (TypeError (invalid_msg k))
  /\ forall k', invalid_msg k' = invalid_msg k -> k' = k.
Proof.
  intros H. split; [|intros k'; apply invalid_msg_names].
  unfold replace. now rewrite (check_stops_at _ _ _ H).
Qed.

Lemma defaults_stop self names : forall kwds x,
  In x names -> dict_get self x = None -> class_attr x = None ->
  exists y,
    In y names /\ dict_get self y = None /\ class_attr y = None
    /\ for_each (fun kwds x => v <- getattr self x ;; Ok (setdefault kwds x v))
                names kwds
       = Raise (AttributeError (no_attribute y)).
Proof.
  induction names as [|n names IH]; intros kwds x Hin Hd Hc; [destruct Hin|].
  cbn [for_each]. unfold getattr at 1.
  destruct (dict_get self n) as [v|] eqn:En.
  - cbn [bind]. destruct Hin as [->|Hin]; [congruence|].
    destruct (IH (setdefault kwds n v) x Hin Hd Hc) as (y & Hy & Hyd & Hyc & Hr).
    exists y. repeat split; try assumption. now right.
  - destruct (class_attr n) as [v|] eqn:Ec.
    + cbn [bind]. destruct Hin as [->|Hin]; [congruence|].
      destruct (IH (setdefault kwds n v) x Hin Hd Hc)
        as (y & Hy & Hyd & Hyc & Hr).
      exists y. repeat split; try assumption. now right.
    + exists n. repeat split; try assumption. now left.
Qed.

(** X5.  [replace] reads every option of the table on the instance before it
    looks at the keyword arguments: on an instance that lacks an option of
    the table it raises [AttributeError] for a lacking option, also when the
    keyword arguments give that option a value. *)
Theorem replace_needs_every_option self mod_settings kwds x :
  no_None kwds = true ->
  In x (dict_keys pyfile_settings) ->
  dict_get self x = None -> class_attr x = None ->
  exists y,
    In y (dict_keys pyfile_settings)
    /\ dict_get self y = None
    /\ replace self mod_settings kwds
       = Raise (AttributeError (no_attribute y)).
Proof.
  intros Hnn Hin Hd Hc. unfold replace, _get_settings_from_pyfile.
  rewrite (check_passes _ Hnn). cbn [bind].
  destruct (defaults_stop self _ kwds x Hin Hd Hc) as (y & Hy & Hyd & _ & Hr).
  exists y. rewrite Hr. now repeat split.
Qed.

(** ** replace on any instance *)

Lemma defaults_read self names : forall kwds res,
  for_each (fun kwds x => v <- getattr self x ;; Ok (setdefault kwds x v))
           names kwds = Ok res ->
  forall x, In x names -> exists v, getattr self x = Ok v.
Proof.
  induction names as [|n names IH]; intros kwds res H x Hin; [destruct Hin|].
  cbn [for_each] in H.
  destruct (getattr self n) as [v|e] eqn:En; cbn [bind] in H; [|discriminate].
  destruct Hin as [<-|Hin]; [now exists v|].
  exact (IH _ _ H x Hin).
Qed.

(** When [replace] returns, no keyword argument was [None] and the instance
    carried every option of the table. *)
Lemma replace_returned self mod_settings kwds s :
  replace self mod_settings kwds = Ok s ->
  no_None kwds = true
  /\ forall x, In x (dict_keys pyfile_settings) ->
               exists v, getattr self x = Ok v.
Proof.
  unfold replace, _get_settings_from_pyfile. intros H.
  destruct (no_None kwds) eqn:Hnn.
  - split; [reflexivity|]. rewrite (check_passes _ Hnn) in H. cbn [bind] in H.
    destruct (for_each _ (dict_keys pyfile_settings) kwds) as [res|e] eqn:Hres;
      cbn [bind] in H; [|discriminate].
    exact (defaults_read _ _ _ _ Hres).
  - destruct (check_raises _ Hnn) as (k & _ & Hr). rewrite Hr in H.
    discriminate.
Qed.

Lemma replace_dictionary self mod_settings kwds s :
  dict_wf kwds -> replace self mod_settings kwds = Ok s ->
  forall k,
    dict_get s k
    = if String.eqb k "_mod_settings" && truthy mod_settings
      then Some mod_settings
      else if String.eqb k "_default" then Some (VBool false)
      else match dict_get kwds k with
           | Some v => Some v
           | None =>
               if existsb (String.eqb k) (dict_keys pyfile_settings)
               then match getattr self k with
                    | Ok v => Some v
                    | Raise _ => None
                    end
               else None
           end.
Proof.
  intros Hwf Hs. destruct (replace_returned _ _ _ _ Hs) as [Hnn Hself].
  destruct (replace_lookup self mod_settings kwds Hself Hwf Hnn)
    as (s' & Hs' & Hget).
  rewrite Hs in Hs'. injection Hs' as <-. exact Hget.
Qed.

(** X6.  On any instance, what [replace] returns reads an option from the
    keyword arguments when they give it, and from the instance when they do
    not and the option table has it: an overlay of an overlay keeps the
    options of the first that the second leaves alone. *)
Theorem replace_layers_options self mod_settings kwds s :
  dict_wf kwds -> replace self mod_settings kwds = Ok s ->
  forall k, option_name k = true ->
    (forall v, dict_get kwds k = Some v -> getattr s k = Ok v)
    /\ (dict_get kwds k = None -> In k (dict_keys pyfile_settings) ->
        getattr s k = getattr self k).
Proof.
  intros Hwf Hs k Hk. apply option_name_spec in Hk. destruct Hk as [Hd Hm].
  destruct (replace_returned _ _ _ _ Hs) as [_ Hself].
  assert (Hget : dict_get s k
                 = match dict_get kwds k with
                   | Some v => Some v
                   | None =>
                       if existsb (String.eqb k) (dict_keys pyfile_settings)
                       then match getattr self k with
                            | Ok v => Some v
                            | Raise _ => None
                            end
                       else None
                   end).
  { rewrite (replace_dictionary _ _ _ _ Hwf Hs).
    destruct (String.eqb_spec k "_mod_settings"); [contradiction|].
    destruct (String.eqb_spec k "_default"); [contradiction|]. reflexivity. }
  split.
  - intros v Hv. unfold getattr. now rewrite Hget, Hv.
  - intros Hn Hin. unfold getattr at 1. rewrite Hget, Hn.
    apply mem_In in Hin as Hm'. rewrite Hm'.
    destruct (Hself k Hin) as [v Hv]. now rewrite Hv.
Qed.

(** X7.  On any instance, what [replace] returns has [_default] false and
    holds [mod_settings] under [_mod_settings] when it is given and true.
    When it is not, and neither the keyword arguments nor the option table
    have that name, the instance has no [_mod_settings] of its own and reads
    the empty dict of the class, whose key is ["default"]: the overrides of
    the instance [replace] was called on are not kept. *)
Theorem replace_bookkeeping self mod_settings kwds s :
  dict_wf kwds -> replace self mod_settings kwds = Ok s ->
  getattr s "_default" = Ok (VBool false)
  /\ (truthy mod_settings = true ->
      getattr s "_mod_settings" = Ok mod_settings)
  /\ (truthy mod_settings = false ->
      dict_get kwds "_mod_settings" = None ->
      dict_has pyfile_settings "_mod_settings" = false ->
      dict_get s "_mod_settings" = None
      /\ getattr s "_mod_settings" = Ok (VDict [])
      /\ forall d, getattr s "_mod_settings" = Ok (VDict d) ->
                   get_key (Some d) = Ok "default").
Proof.
  intros Hwf Hs. pose proof (replace_dictionary _ _ _ _ Hwf Hs) as Hget.
  split; [|split].
  - unfold getattr. rewrite Hget. simpl.
    destruct (truthy mod_settings); reflexivity.
  - intros Ht. unfold getattr. now rewrite Hget, Ht.
  - intros Ht Hk Htab.
    assert (Hn : dict_get s "_mod_settings" = None).
    { assert (E : existsb (String.eqb "_mod_settings")
                          (dict_keys pyfile_settings) = false).
      { apply mem_not_In. rewrite <- dict_has_In. congruence. }
      rewrite Hget, Ht, Hk, E, andb_false_r. reflexivity. }
    split; [exact Hn|]. unfold getattr. rewrite Hn. simpl.
    split; [reflexivity|]. now intros d [= <-].
Qed.

Lemma dict_get_perm d1 d2 k :
  dict_wf d1 -> Permutation d1 d2 -> dict_get d1 k = dict_get d2 k.
Proof.
  intros Hwf Hp. pose proof (wf_perm _ _ Hp Hwf) as Hwf2.
  destruct (dict_get d1 k) as [v|] eqn:E.
  - apply dict_get_In in E. apply (Permutation_in _ Hp) in E.
    symmetry. now apply dict_get_wf.
  - symmetry. apply dict_get_None. apply dict_get_None in E.
    intros H. apply E.
    apply (Permutation_in _ (Permutation_sym (Permutation_map fst Hp))).
    exact H.
Qed.

(** X8.  The order in which the keyword arguments are given does not change
    what the returned instance holds under any name. *)
Theorem replace_order_irrelevant self mod_settings kwds kwds' s :
  dict_wf kwds -> Permutation kwds kwds' ->
  replace self mod_settings kwds = Ok s ->
  exists s',
    replace self mod_settings kwds' = Ok s'
    /\ forall k, dict_get s' k = dict_get s k.
Proof.
  intros Hwf Hp Hs. destruct (replace_returned _ _ _ _ Hs) as [Hnn Hself].
  assert (Hwf' : dict_wf kwds') by exact (wf_perm _ _ Hp Hwf).
  assert (Hnn' : no_None kwds' = true).
  { apply no_None_true. intros k v Hin.
    apply (Permutation_in _ (Permutation_sym Hp)) in Hin.
    exact (proj1 (no_None_true kwds) Hnn _ _ Hin). }
  destruct (replace_lookup self mod_settings kwds' Hself Hwf' Hnn')
    as (s' & Hs' & Hget').
  exists s'. split; [exact Hs'|]. intros k.
  rewrite Hget', (replace_dictionary _ _ _ _ Hwf Hs).
  now rewrite (dict_get_perm _ _ k Hwf Hp).
Qed.

(** ** The snapshots the module produces *)

Lemma replace_keeps_table self mod_settings kwds s :
  replace self mod_settings kwds = Ok s ->
  forall x, In x (dict_keys pyfile_settings) -> In x (dict_keys s).
Proof.
  intros Hs x Hx. destruct (replace_returned _ _ _ _ Hs) as [Hnn Hself].
  revert Hs. unfold replace, _get_settings_from_pyfile.
  rewrite (check_passes _ Hnn). cbn [bind].
  destruct (for_each _ (dict_keys pyfile_settings) kwds) as [res|e] eqn:Hres;
    cbn [bind]; [|discriminate].
  destruct (defaults_filled _ _ _ _ Hres) as (Hget & _ & _).
  assert (Hr : In x (dict_keys res)).
  { destruct (dict_get res x) as [v|] eqn:E.
    - apply dict_get_In in E. now apply (in_map fst) in E.
    - exfalso. rewrite Hget in E. destruct (dict_get kwds x); [discriminate|].
      apply mem_In in Hx as Hm. rewrite Hm in E.
      destruct (Hself x Hx) as [v Hv]. rewrite Hv in E. discriminate. }
  assert (Hk : forall d k v, In x (dict_keys d) -> In x (dict_keys (setitem d k v))).
  { intros d k v H. rewrite dict_keys_setitem.
    destruct (dict_has d k); [exact H|]. apply in_or_app. now left. }
  intros [= <-]. unfold Settings, __init__.
  destruct (truthy mod_settings).
  - destruct (setitem _ "_mod_settings" mod_settings) as [|kv d] eqn:E.
    + now apply setitem_not_nil in E.
    + apply updateall_keeps. right. rewrite <- E. now apply Hk, Hk.
  - destruct (setitem res "_default" (VBool false)) as [|kv d] eqn:E.
    + now apply setitem_not_nil in E.
    + apply updateall_keeps. right. rewrite <- E. now apply Hk.
Qed.

Lemma carried_is_read self x :
  In x (dict_keys self) -> exists v, getattr self x = Ok v.
Proof.
  intros H. unfold getattr. destruct (dict_get self x) as [v|] eqn:E.
  - now exists v.
  - apply dict_get_None in E. contradiction.
Qed.

(** X9.  Every snapshot the module produces carries every option of the
    table, and [replace] on it raises nothing as long as no keyword argument
    is [None]. *)
Theorem produced_is_complete s :
  produced s ->
  (forall x, In x (dict_keys pyfile_settings) -> In x (dict_keys s))
  /\ (forall mod_settings kwds,
        no_None kwds = true -> exists s', replace s mod_settings kwds = Ok s').
Proof.
  intros Hp.
  assert (Hbase : forall x, In x (dict_keys pyfile_settings) ->
                            In x (dict_keys settings)).
  { intros x Hx. unfold settings, Settings, __init__, _get_settings_from_pyfile.
    apply updateall_keeps. now right. }
  assert (Hc : forall x, In x (dict_keys pyfile_settings) -> In x (dict_keys s)).
  { induction Hp as [|self ms kwds s Hself IH Hr
                     |args kwargs args' kwargs' s Hin IH Ha Hk].
    - exact Hbase.
    - exact (replace_keeps_table _ _ _ _ Hr).
    - destruct (apply_settings_hands_over _ _ _ _ _ Ha Hk) as [->|[[d Hr]|H]].
      + exact Hbase.
      + exact (replace_keeps_table _ _ _ _ Hr).
      + now apply IH. }
  split; [exact Hc|]. intros ms kwds Hnn.
  unfold replace, _get_settings_from_pyfile.
  rewrite (check_passes _ Hnn). cbn [bind].
  destruct (defaults_fill s (dict_keys pyfile_settings) kwds) as [res ->].
  - intros x Hx. apply carried_is_read. now apply Hc.
  - cbn [bind]. eexists; reflexivity.
Qed.

(** ** More on get_key *)

Lemma comprehension_ext {A B : Type} (e1 e2 : A -> result B) l :
  (forall x, e1 x = e2 x) -> comprehension e1 l = comprehension e2 l.
Proof.
  intros H. induction l as [|x l IH]; simpl; [reflexivity|].
  now rewrite H, IH.
Qed.

Lemma get_key_digest kv d :
  exists frs,
    get_key (Some (kv :: d)) = Ok (MD5.hexdigest (join (sorted frs))).
Proof.
  unfold get_key.
  assert (H : forall l, incl l (dict_keys (kv :: d)) ->
            exists frs,
              comprehension
                (fun key => v <- getitem (kv :: d) key ;; Ok (fragment (key, v)))
                l = Ok frs).
  { induction l as [|k l IH]; intros Hl; [eexists; reflexivity|].
    cbn [comprehension]. unfold getitem at 1.
    destruct (dict_get (kv :: d) k) as [v|] eqn:E.
    - destruct IH as [frs ->]; [intros x Hx; apply Hl; now right|].
      eexists; reflexivity.
    - apply dict_get_None in E. exfalso. apply E, Hl. now left. }
  destruct (H (dict_keys (kv :: d))) as [frs ->]; [apply incl_refl|].
  eexists; reflexivity.
Qed.

(** X10.  [get_key] returns a key for every dict, and the key is ["default"]
    only when the overrides are absent or empty: the key of a non-empty dict
    is made of 32 hexadecimal characters. *)
Theorem get_key_sentinel o :
  exists key,
    get_key o = Ok key
    /\ (key = "default" <-> o = None \/ o = Some [])
    /\ (key <> "default" ->
        String.length key = 32%nat
        /\ forallb is_hex (list_ascii_of_string key) = true).
Proof.
  destruct o as [[|kv d]|].
  - exists "default". split; [reflexivity|]. split; [tauto|congruence].
  - destruct (get_key_digest kv d) as [frs H].
    exists (MD5.hexdigest (join (sorted frs))). split; [exact H|].
    destruct (hexdigest_shape (join (sorted frs))) as [Hl Hh].
    split; [|intros _; now split]. split.
    + intros E. rewrite E in Hl. discriminate.
    + intros [E|E]; discriminate.
  - exists "default". split; [reflexivity|]. split; [tauto|congruence].
Qed.

Lemma dict_get_map (g : value -> value) d k :
  dict_get (map (fun kv => (fst kv, g (snd kv))) d) k
  = option_map g (dict_get d k).
Proof.
  induction d as [|[k' v'] d IH]; simpl; [reflexivity|].
  destruct (String.eqb k k'); [reflexivity|exact IH].
Qed.

(** X11.  The key does not tell a value from its [str()] text: putting the
    text in the place of every value of a dict leaves the key as it is. *)
Theorem get_key_reads_text d :
  get_key (Some (map (fun kv => (fst kv, VStr (py_str (snd kv)))) d))
  = get_key (Some d).
Proof.
  destruct d as [|kv d]; [reflexivity|].
  set (g := map (fun kv => (fst kv, VStr (py_str (snd kv)))) (kv :: d)).
  assert (Hk : dict_keys g = dict_keys (kv :: d)).
  { unfold g, dict_keys. rewrite map_map. reflexivity. }
  assert (Hc : comprehension
                 (fun key => v <- getitem g key ;; Ok (fragment (key, v)))
                 (dict_keys g)
               = comprehension
                   (fun key => v <- getitem (kv :: d) key ;;
                               Ok (fragment (key, v)))
                   (dict_keys (kv :: d))).
  { rewrite Hk. apply comprehension_ext. intros key.
    pose proof (dict_get_map (fun v => VStr (py_str v)) (kv :: d) key) as Hm.
    cbv beta in Hm. unfold getitem, g. rewrite Hm.
    destruct (dict_get (kv :: d) key); reflexivity. }
  change (get_key (Some g) = get_key (Some (kv :: d))).
  unfold get_key. destruct g as [|kv' g'] eqn:Eg; [discriminate|].
  now rewrite Hc.
Qed.

(** ** More on apply_settings *)

(** The wrapper runs the same way whatever it wraps: it is the wrapper around
    [probe], followed by the call of [f] on what [probe] was given. *)
Lemma apply_settings_factor {R : Type} (f : list value -> dict -> result R)
  args kwargs :
  apply_settings f args kwargs
  = (p <- apply_settings probe args kwargs ;; f (fst p) (snd p)).
Proof.
  destruct (truthy (get kwargs "settings")) eqn:Ht.
  - destruct (get kwargs "settings") as [| | | |d|s0| ] eqn:Hg;
      try (rewrite !apply_settings_other by (now rewrite Hg); reflexivity).
    + destruct d as [|kv d]; [discriminate|].
      rewrite !(apply_settings_dict _ args kwargs _ Hg) by discriminate.
      destruct (call_replace settings (VDict (kv :: d)) (kv :: d));
        reflexivity.
    + assert (Hk0 : dict_get kwargs "settings" = Some (VInst s0)).
      { revert Hg. unfold get.
        destruct (dict_get kwargs "settings"); [now intros ->|discriminate]. }
      now rewrite !(apply_settings_instance _ args kwargs s0 Hk0).
  - now rewrite !apply_settings_falsy by exact Ht.
Qed.

Lemma apply_settings_result args kwargs args' kwargs' :
  apply_settings probe args kwargs = Ok (args', kwargs') ->
  args' = args /\ exists s, kwargs' = setitem kwargs "settings" (VInst s).
Proof.
  intros Ha.
  destruct (truthy (get kwargs "settings")) eqn:Ht.
  - destruct (get kwargs "settings") as [| | | |d|s0| ] eqn:Hg;
      try (rewrite apply_settings_other in Ha by (now rewrite Hg); discriminate).
    + destruct d as [|kv d]; [discriminate|].
      rewrite (apply_settings_dict probe args kwargs _ Hg) in Ha by discriminate.
      destruct (call_replace settings (VDict (kv :: d)) (kv :: d))
        as [r|e]; cbn [bind] in Ha; [|discriminate].
      injection Ha as <- <-. split; [reflexivity|now exists r].
    + assert (Hk0 : dict_get kwargs "settings" = Some (VInst s0)).
      { revert Hg. unfold get.
        destruct (dict_get kwargs "settings"); [now intros ->|discriminate]. }
      rewrite (apply_settings_instance probe args kwargs s0 Hk0) in Ha.
      injection Ha as <- <-. split; [reflexivity|]. exists s0.
      symmetry. now apply setitem_same.
  - rewrite apply_settings_falsy in Ha by exact Ht.
    injection Ha as <- <-. split; [reflexivity|now exists settings].
Qed.

(** X12.  Whether the wrapper raises, and what it hands over, does not depend
    on the callable.  When it calls the callable, it is with the positional
    arguments of the caller and with the keyword arguments of the caller, in
    their order, where [settings] holds an instance of [Settings]. *)
Theorem apply_settings_hands_instance args kwargs :
  (exists e, forall (R : Type) (f : list value -> dict -> result R),
        apply_settings f args kwargs = Raise e)
  \/ (exists s, forall (R : Type) (f : list value -> dict -> result R),
         apply_settings f args kwargs
         = f args (setitem kwargs "settings" (VInst s))).
Proof.
  destruct (apply_settings probe args kwargs) as [[args' kwargs']|e] eqn:E.
  - destruct (apply_settings_result _ _ _ _ E) as (-> & s & ->).
    right. exists s. intros R f. now rewrite apply_settings_factor, E.
  - left. exists e. intros R f. now rewrite apply_settings_factor, E.
Qed.

(** X13.  Decorating twice is decorating once. *)
Theorem apply_settings_twice {R : Type} (f : list value -> dict -> result R)
  args kwargs :
  apply_settings (apply_settings f) args kwargs = apply_settings f args kwargs.
Proof.
  rewrite (apply_settings_factor (apply_settings f)).
  rewrite (apply_settings_factor f args kwargs).
  destruct (apply_settings probe args kwargs) as [[args' kwargs']|e] eqn:E;
    [|reflexivity].
  destruct (apply_settings_result _ _ _ _ E) as (-> & s & ->). cbn [bind fst snd].
  apply apply_settings_instance with s. apply dict_get_setitem_eq.
Qed.

(** X14.  A dict under [settings] with a [None] among its values makes the
    wrapper raise the error of [replace] for the first such entry; the
    callable is not called. *)
Theorem apply_settings_rejects_None {R : Type}
  (f : list value -> dict -> result R) args kwargs pre k post :
  dict_get kwargs "settings" = Some (VDict (pre ++ (k, VNone) :: post)%list) ->
  no_None pre = true ->
  dict_has (pre ++ (k, VNone) :: post)%list "mod_settings" = false ->
  dict_has (pre ++ (k, VNone) :: post)%list "self" = false ->
  apply_settings f args kwargs = Raise (TypeError (invalid_msg k)).
Proof.
  intros Hk Hpre Hms Hself.
  assert (Hg : get kwargs "settings" = VDict (pre ++ (k, VNone) :: post)%list)
    by (unfold get; now rewrite Hk).
  rewrite (apply_settings_dict f args kwargs _ Hg)
    by (destruct pre; discriminate).
  unfold call_replace. rewrite Hms, Hself. unfold replace.
  now rewrite (check_stops_at _ _ _ Hpre).
Qed.

(** ** The table is imported once *)

Lemma after_calls_last n : forall st,
  after_calls (S n) st = snd (_get_settings_from_pyfile_st (after_calls n st)).
Proof.
  induction n as [|n IH]; intros st; [reflexivity|].
  change (after_calls (S (S n)) st)
    with (after_calls (S n) (snd (_get_settings_from_pyfile_st st))).
  now rewrite IH.
Qed.

Lemma after_calls_state n :
  after_calls (S n) (VNone, 0%nat)
  = (VDict pyfile_settings,
     match pyfile_settings with [] => S n | _ :: _ => 1%nat end).
Proof.
  induction n as [|n IH].
  - simpl. unfold _get_settings_from_pyfile_st. simpl.
    now destruct pyfile_settings.
  - rewrite after_calls_last, IH. unfold _get_settings_from_pyfile_st. simpl.
    now destruct pyfile_settings.
Qed.

(** X15.  From a class whose [_pyfile_data] is [None], every call of
    [_get_settings_from_pyfile] returns the option table.  The import runs at
    the first call only when the table is not empty; an empty table is never
    taken for loaded, and the import runs at every call. *)
Theorem pyfile_imported_once n :
  fst (_get_settings_from_pyfile_st (after_calls n (VNone, 0%nat)))
  = VDict _get_settings_from_pyfile
  /\ (pyfile_settings <> [] ->
      snd (after_calls (S n) (VNone, 0%nat)) = 1%nat)
  /\ (pyfile_settings = [] ->
      snd (after_calls n (VNone, 0%nat)) = n).
Proof.
  split; [|split].
  - unfold _get_settings_from_pyfile. destruct n as [|n]; [reflexivity|].
    rewrite after_calls_state. unfold _get_settings_from_pyfile_st. simpl.
    now destruct pyfile_settings.
  - intros H. rewrite after_calls_state. simpl.
    destruct pyfile_settings; [congruence|reflexivity].
  - intros H. destruct n as [|n]; [reflexivity|].
    rewrite after_calls_state. simpl. now rewrite H.
Qed.

End Conf.

Arguments apply_settings pyfile_settings {R} f args kwargs.

(** ** Keys from one run of the interpreter to the next *)

(** C4.  Two dicts that hold the same entries, inserted in whatever order,
    have the same key in one run of the interpreter.  Between two runs the
    key is the same when [str()] gives the same text for every value of the
    dict in both. *)
Theorem get_key_same_entries (run_a run_b : str_of) m1 m2 :
  dict_wf m1 -> Permutation m1 m2 ->
  get_key run_a (Some m1) = get_key run_a (Some m2)
  /\ ((forall k v, In (k, v) m1 -> py_str run_a v = py_str run_b v) ->
      get_key run_a (Some m1) = get_key run_b (Some m2)).
Proof.
  intros Hwf Hp.
  assert (H : forall run, (forall k v, In (k, v) m1 ->
                                       py_str run_a v = py_str run v) ->
                          get_key run_a (Some m1) = get_key run (Some m2)).
  { intros run Hrun. destruct m1 as [|kv m1].
    - apply Permutation_nil in Hp. now subst.
    - assert (Hne : m2 <> []).
      { intros ->. apply Permutation_sym, Permutation_nil in Hp.
        discriminate. }
      assert (Hne1 : kv :: m1 <> []) by discriminate.
      pose proof (get_key_of_dict run_a (kv :: m1) Hwf Hne1) as E1.
      pose proof (get_key_of_dict run m2 (wf_perm _ _ Hp Hwf) Hne) as E2.
      transitivity
        (Ok (A := string)
            (MD5.hexdigest (join (sorted (map (fragment run_a) (kv :: m1))))));
        [exact E1|].
      symmetry.
      transitivity
        (Ok (A := string)
            (MD5.hexdigest (join (sorted (map (fragment run) m2)))));
        [exact E2|].
      symmetry. do 3 f_equal. apply sorted_of_perm.
      replace (map (fragment run_a) (kv :: m1))
        with (map (fragment run) (kv :: m1)).
      + now apply Permutation_map.
      + apply map_ext_in. intros [k v] Hin. unfold fragment. simpl.
        now rewrite (Hrun k v Hin). }
  split; [apply H; reflexivity|exact (H run_b)].
Qed.

Lemma get_key_same_entries_witness :
  get_key str_in_run_a (Some [("A", VInt 1); ("B", VStr "x")])
  = get_key str_in_run_a (Some [("B", VStr "x"); ("A", VInt 1)])
  /\ get_key str_in_run_a (Some [("A", VInt 1); ("B", VStr "x")])
     = get_key str_in_run_b (Some [("B", VStr "x"); ("A", VInt 1)]).
Proof.
  destruct (get_key_same_entries str_in_run_a str_in_run_b
              [("A", VInt 1); ("B", VStr "x")]
              [("B", VStr "x"); ("A", VInt 1)]) as [H1 H2];
    [reflexivity|apply perm_swap|].
  split; [exact H1|]. apply H2.
  intros k v [H|[H|[]]]; injection H as _ <-; reflexivity.
Defined.

(** ** The theorems on the defaults of the docstring *)

Lemma replace_on_base_witness :
  exists s,
    replace docstring_defaults (settings docstring_defaults) VNone
            [("TIMEZONE", VStr "CET")] = Ok s
    /\ getattr docstring_defaults s "TIMEZONE" = Ok (VStr "CET")
    /\ getattr docstring_defaults s "PREFER_DATES_FROM"
       = Ok (VStr "current_period")
    /\ getattr docstring_defaults s "_default" = Ok (VBool false).
Proof.
  destruct (replace_on_base docstring_defaults VNone [("TIMEZONE", VStr "CET")])
    as (s & Hs & _ & Hnew & Hold & Hdef & _); [reflexivity|reflexivity|].
  exists s. split; [exact Hs|]. split; [|split; [|exact Hdef]].
  - apply Hnew; reflexivity.
  - rewrite Hold; reflexivity.
Defined.

Lemma replace_raises_iff_None_witness :
  exists s,
    replace docstring_defaults (settings docstring_defaults) VNone
            [("TIMEZONE", VStr "CET")] = Ok s.
Proof.
  apply (replace_raises_iff_None docstring_defaults
           (settings docstring_defaults) VNone [("TIMEZONE", VStr "CET")]).
  intros k [H|[]]. discriminate.
Defined.

Lemma get_key_default_or_md5_witness :
  dict_wf [("PREFER_DATES_FROM", VStr "past")]
  /\ get_key plain_str (Some [("PREFER_DATES_FROM", VStr "past")])
     = Ok (MD5.hexdigest "PREFER_DATES_FROM-past")
  /\ get_key plain_str (Some [("PREFER_DATES_FROM", VStr "past")])
     = Ok "391dbbdfd5b7cb62836f002db49e9c7b".
Proof.
  destruct (get_key_default_or_md5 plain_str) as (_ & _ & H & Hd & _).
  destruct (H [("PREFER_DATES_FROM", VStr "past")])
    as (frags & key & Hp & _ & Hkey & Hk & _); [reflexivity|discriminate|].
  split; [reflexivity|]. split; [|exact Hd].
  apply Permutation_sym, Permutation_length_1_inv in Hp.
  transitivity (Ok key); [exact Hk|]. rewrite Hkey, Hp. reflexivity.
Defined.

Lemma get_key_not_injective_witness :
  get_key plain_str (Some [("A", VInt 1)])
  = get_key plain_str (Some [("A", VStr "1")]).
Proof.
  apply (get_key_not_injective plain_str).
Defined.

Lemma apply_settings_with_dict_witness :
  exists s,
    apply_settings docstring_defaults probe [VStr "10 days ago"]
      [("settings", VDict [("PREFER_DATES_FROM", VStr "past")])]
    = Ok ([VStr "10 days ago"], [("settings", VInst s)])
    /\ getattr docstring_defaults s "PREFER_DATES_FROM" = Ok (VStr "past")
    /\ getattr docstring_defaults s "TIMEZONE" = Ok (VStr "UTC")
    /\ getattr docstring_defaults s "_mod_settings"
       = Ok (VDict [("PREFER_DATES_FROM", VStr "past")]).
Proof.
  destruct (apply_settings_with_dict docstring_defaults plain_str probe
              [VStr "10 days ago"]
              [("settings", VDict [("PREFER_DATES_FROM", VStr "past")])]
              [("PREFER_DATES_FROM", VStr "past")])
    as (s & Hs & Hnew & Hold & Hmod & _); try reflexivity.
  exists s. split; [exact Hs|]. split; [|split; [|exact Hmod]].
  - apply Hnew; reflexivity.
  - rewrite Hold; reflexivity.
Defined.

Lemma apply_settings_without_settings_witness :
  apply_settings docstring_defaults probe [VStr "10 days ago"]
    [("languages", VObj true "['en']")]
  = Ok ([VStr "10 days ago"],
        [("languages", VObj true "['en']");
         ("settings", VInst (settings docstring_defaults))])
  /\ getattr docstring_defaults (settings docstring_defaults) "_default"
     = Ok (VBool true).
Proof.
  destruct (apply_settings_without_settings docstring_defaults probe
              [VStr "10 days ago"] [("languages", VObj true "['en']")])
    as (Hs & _ & Hdef & _); [left; reflexivity|].
  split; [exact Hs|apply Hdef; reflexivity].
Defined.

Lemma apply_settings_type_error_witness :
  apply_settings docstring_defaults probe [] [("settings", VInt 42)]
  = Raise (TypeError settings_type_msg).
Proof.
  apply (apply_settings_type_error docstring_defaults [] [("settings", VInt 42)]).
  exists (VInt 42). repeat split; reflexivity.
Defined.

Lemma apply_settings_passes_snapshot_witness :
  apply_settings docstring_defaults probe []
    [("settings", VInst (settings docstring_defaults))]
  = Ok ([], [("settings", VInst (settings docstring_defaults))]).
Proof.
  destruct (apply_settings_passes_snapshot docstring_defaults probe []
              [("settings", VInst (settings docstring_defaults))]
              (settings docstring_defaults)) as (_ & H & _);
    [reflexivity|exact H].
Defined.

Lemma produced_without_None_witness :
  no_None (settings docstring_defaults) = true.
Proof.
  apply (produced_without_None docstring_defaults (settings docstring_defaults));
    [reflexivity|apply produced_base].
Defined.

(** ** Where the specification and the module part *)

(** A dict that holds [None] under [settings]: [replace] raises and [f] is
    not called.  An entry named [mod_settings] stops the call of [replace]
    itself. *)
Lemma apply_settings_with_dict_counterexample :
  apply_settings docstring_defaults probe []
    [("settings", VDict [("TIMEZONE", VNone)])]
  = Raise (TypeError (invalid_msg "TIMEZONE"))
  /\ (~ exists s,
        apply_settings docstring_defaults probe []
          [("settings", VDict [("TIMEZONE", VNone)])]
        = probe [] [("settings", VInst s)])
  /\ (~ exists s,
        apply_settings docstring_defaults probe []
          [("settings", VDict [("mod_settings", VInt 1)])]
        = probe [] [("settings", VInst s)]).
Proof.
  split; [reflexivity|]. split; intros [s H]; discriminate.
Qed.

(** A [Settings] instance among the values of the overrides: its [str()]
    shows an address, and the same overrides have one key in one run and
    another key in the next. *)
Lemma get_key_same_entries_counterexample :
  get_key str_in_run_a
    (Some [("RELATIVE_BASE", VInst (settings docstring_defaults))])
  = Ok "7046f669a86886ba03ad89a6fd78270e"
  /\ get_key str_in_run_b
       (Some [("RELATIVE_BASE", VInst (settings docstring_defaults))])
     = Ok "8dce239cd94054777ac619d4520f8e67"
  /\ get_key str_in_run_a
       (Some [("RELATIVE_BASE", VInst (settings docstring_defaults))])
     <> get_key str_in_run_b
          (Some [("RELATIVE_BASE", VInst (settings docstring_defaults))]).
Proof.
  split; [vm_compute; reflexivity|]. split; [vm_compute; reflexivity|].
  intros H. vm_compute in H. discriminate.
Qed.

(** [0] under [settings] is neither a dict nor an instance, and the wrapper
    raises nothing; [42] and ['x'] raise the same error, which says nothing
    of the value received. *)
Lemma apply_settings_type_error_counterexample :
  (dict_get [("settings", VInt 0)] "settings" = Some (VInt 0)
   /\ isinstance_dict (VInt 0) = false
   /\ isinstance_Settings (VInt 0) = false
   /\ apply_settings docstring_defaults probe [] [("settings", VInt 0)]
      = Ok ([], [("settings", VInst (settings docstring_defaults))]))
  /\ apply_settings docstring_defaults probe [] [("settings", VInt 42)]
     = apply_settings docstring_defaults probe [] [("settings", VStr "x")].
Proof.
  repeat split.
Qed.

(** An option table with a [None] default: the base instance holds [None],
    and so does what [replace] and the wrapper make of it. *)
Lemma produced_without_None_counterexample :
  (produced table_with_None (settings table_with_None)
   /\ getattr table_with_None (settings table_with_None) "RELATIVE_BASE"
      = Ok VNone)
  /\ (replace table_with_None (settings table_with_None) VNone
              [("TIMEZONE", VStr "CET")] = Ok overlaid_with_None
      /\ produced table_with_None overlaid_with_None
      /\ no_None overlaid_with_None = false)
  /\ ~ (forall s, produced table_with_None s -> no_None s = true).
Proof.
  assert (H : produced table_with_None overlaid_with_None).
  { apply (produced_replace table_with_None (settings table_with_None) VNone
             [("TIMEZONE", VStr "CET")]); [apply produced_base|reflexivity]. }
  split; [split; [apply produced_base|reflexivity]|].
  split; [split; [reflexivity|split; [exact H|reflexivity]]|].
  intros Hall. apply Hall in H. discriminate.
Qed.

(** ** The further properties on the defaults of the docstring *)

Lemma base_reads_the_table_witness :
  getattr docstring_defaults (settings docstring_defaults) "TIMEZONE"
  = Ok (VStr "UTC").
Proof.
  apply (base_reads_the_table docstring_defaults); [reflexivity|].
  simpl. tauto.
Defined.

Lemma Settings_from_dict_witness :
  getattr docstring_defaults
    (Settings docstring_defaults (Some [("TIMEZONE", VStr "CET")])) "TIMEZONE"
  = Ok (VStr "CET")
  /\ getattr docstring_defaults
       (Settings docstring_defaults (Some [("TIMEZONE", VStr "CET")]))
       "SKIP_TOKENS"
     = Raise (AttributeError (no_attribute "SKIP_TOKENS")).
Proof.
  destruct (Settings_from_dict docstring_defaults [("TIMEZONE", VStr "CET")])
    as (E & H & _); [reflexivity|discriminate|].
  split; [apply E; now left|].
  apply H; [simpl; tauto|reflexivity|reflexivity].
Defined.

Lemma replace_reports_first_None_witness :
  replace docstring_defaults (settings docstring_defaults) VNone
    [("TIMEZONE", VStr "CET"); ("RELATIVE_BASE", VNone); ("FUZZY", VNone)]
  = Raise (TypeError (invalid_msg "RELATIVE_BASE")).
Proof.
  apply (replace_reports_first_None docstring_defaults
           (settings docstring_defaults) VNone
           [("TIMEZONE", VStr "CET")] "RELATIVE_BASE" [("FUZZY", VNone)]).
  reflexivity.
Defined.

Lemma replace_needs_every_option_witness :
  exists y,
    replace docstring_defaults [("TIMEZONE", VStr "CET")] VNone
      [("SKIP_TOKENS", VObj true "['t']")]
    = Raise (AttributeError (no_attribute y)).
Proof.
  destruct (replace_needs_every_option docstring_defaults
              [("TIMEZONE", VStr "CET")] VNone
              [("SKIP_TOKENS", VObj true "['t']")] "SKIP_TOKENS")
    as (y & _ & _ & H); [reflexivity|simpl; tauto|reflexivity|reflexivity|].
  now exists y.
Defined.

Lemma replace_layers_options_witness :
  exists s,
    replace docstring_defaults (settings docstring_defaults) VNone
      [("TIMEZONE", VStr "CET"); ("FUZZY", VBool true)] = Ok s
    /\ getattr docstring_defaults s "TIMEZONE" = Ok (VStr "CET")
    /\ getattr docstring_defaults s "SKIP_TOKENS" = Ok (VObj true "['t']").
Proof.
  eexists. split; [reflexivity|].
  split.
  - apply (replace_layers_options docstring_defaults
             (settings docstring_defaults) VNone
             [("TIMEZONE", VStr "CET"); ("FUZZY", VBool true)]);
      reflexivity.
  - rewrite (proj2 (replace_layers_options docstring_defaults
                      (settings docstring_defaults) VNone
                      [("TIMEZONE", VStr "CET"); ("FUZZY", VBool true)]
                      _ eq_refl eq_refl "SKIP_TOKENS" eq_refl));
      [reflexivity|reflexivity|simpl; tauto].
Defined.

Lemma replace_bookkeeping_witness :
  exists s,
    replace docstring_defaults (settings docstring_defaults) VNone
      [("TIMEZONE", VStr "CET")] = Ok s
    /\ getattr docstring_defaults s "_default" = Ok (VBool false)
    /\ getattr docstring_defaults s "_mod_settings" = Ok (VDict []).
Proof.
  eexists. split; [reflexivity|].
  destruct (replace_bookkeeping docstring_defaults plain_str
              (settings docstring_defaults) VNone [("TIMEZONE", VStr "CET")]
              _ eq_refl eq_refl) as (Hd & _ & Hm).
  split; [exact Hd|]. now apply Hm.
Defined.

Lemma replace_order_irrelevant_witness :
  exists s',
    replace docstring_defaults (settings docstring_defaults) VNone
      [("FUZZY", VBool true); ("TIMEZONE", VStr "CET")] = Ok s'
    /\ dict_get s' "TIMEZONE" = Some (VStr "CET").
Proof.
  destruct (replace_order_irrelevant docstring_defaults
              (settings docstring_defaults) VNone
              [("TIMEZONE", VStr "CET"); ("FUZZY", VBool true)]
              [("FUZZY", VBool true); ("TIMEZONE", VStr "CET")]
              _ eq_refl (perm_swap _ _ _) eq_refl) as (s' & Hs' & H).
  exists s'. split; [exact Hs'|]. rewrite H. reflexivity.
Defined.

Lemma produced_is_complete_witness :
  exists s',
    replace docstring_defaults (settings docstring_defaults) VNone
      [("TIMEZONE", VStr "CET")] = Ok s'.
Proof.
  apply (produced_is_complete docstring_defaults (settings docstring_defaults));
    [apply produced_base|reflexivity].
Defined.

Lemma get_key_sentinel_witness :
  exists key,
    get_key plain_str (Some [("TIMEZONE", VStr "CET")]) = Ok key
    /\ String.length key = 32%nat.
Proof.
  destruct (get_key_sentinel plain_str (Some [("TIMEZONE", VStr "CET")]))
    as (key & Hk & Hiff & Hshape).
  exists key. split; [exact Hk|]. apply Hshape.
  intros E. apply Hiff in E. destruct E; discriminate.
Defined.

Lemma apply_settings_rejects_None_witness :
  apply_settings docstring_defaults probe [VStr "10 days ago"]
    [("settings",
      VDict [("TIMEZONE", VStr "CET"); ("RELATIVE_BASE", VNone)])]
  = Raise (TypeError (invalid_msg "RELATIVE_BASE")).
Proof.
  apply (apply_settings_rejects_None docstring_defaults probe
           [VStr "10 days ago"] _ [("TIMEZONE", VStr "CET")]
           "RELATIVE_BASE" []); reflexivity.
Defined.

Lemma pyfile_imported_once_witness :
  snd (after_calls docstring_defaults 4 (VNone, 0%nat)) = 1%nat
  /\ snd (after_calls [] 4 (VNone, 0%nat)) = 4%nat.
Proof.
  split.
  - apply (pyfile_imported_once docstring_defaults 3). discriminate.
  - apply (pyfile_imported_once [] 4). reflexivity.
Defined.
